(** * A shallow embedding of the chat server [src/server.js]

    The server keeps two persisted collections ([Room] and [Message],
    Mongoose models over MongoDB), a Socket.IO connection per client and
    two REST endpoints.  Every handler is modelled as a computation in a
    small state-and-exception monad over a [World]: the two collections,
    the current connection (its [roomId] / [username] session fields), the
    Socket.IO room adapter, the log of emitted events, the wall clock read
    by [Date.now] / [new Date()], the ObjectId generator, and an oracle of
    store faults (each store round trip consumes one entry; [true] makes
    that round trip reject, as a lost connection would).  The [try/catch]
    of each handler is the monad's [catch]. *)

From Stdlib Require Import List String ZArith Bool Lia Sorted Permutation.
Import ListNotations.
Open Scope Z_scope.
Open Scope string_scope.
Open Scope list_scope.

(** ** Data model (the two Mongoose schemas) *)

(** [roomSchema]: [roomId] (required, unique), [participants], [createdAt]. *)
Record Room := mkRoom {
  roomId : string;
  participants : list string;
  createdAt : Z
}.

(** [messageSchema]: [roomId], [sender], [text] (all required) and
    [timestamp]; [_id] is the ObjectId Mongoose assigns on construction. *)
Record Message := mkMessage {
  _id : Z;
  m_roomId : string;
  sender : string;
  text : string;
  timestamp : Z
}.

(** The session fields the handlers store on the [socket] object;
    [None] is JavaScript's [undefined]. *)
Record Socket := mkSocket {
  socket_id : nat;
  socket_roomId : option string;
  socket_username : option string
}.

(** Outbound events, one constructor per event name, with their payloads. *)
Inductive Payload :=
| RoomJoined (r : string) (ps : list string) (ms : list Message)
| UserJoined (u : string) (ps : list string)
| NewMessage (id : Z) (r s t : string) (ts : Z)
| UserTyping (u : string) (isTyping : bool)
| RoomChatCleared
| UserLeft (u : string) (ps : list string)
| ErrorEvent (message : string).

(** Fan-out targets: [socket.emit], [io.to(r).emit], [socket.to(r).emit]. *)
Inductive Target :=
| ToSocket (sid : nat)
| ToRoom (r : string)
| ToRoomExcept (r : string) (sid : nat).

Record Event := mkEvent { ev_target : Target; ev_payload : Payload }.

Record World := mkWorld {
  rooms : list Room;
  messages : list Message;
  sock : Socket;
  adapter : list (string * nat);
  log : list Event;
  faults : list bool;
  clock : Z;
  next_oid : Z
}.

(** ** The state-and-exception monad *)

Inductive Exc := StoreFault | ValidationError | DuplicateKey | DocumentNotFound.

Definition M (A : Type) := World -> (Exc + A) * World.

Definition ret {A} (a : A) : M A := fun w => (inr a, w).
Definition throw {A} (e : Exc) : M A := fun w => (inl e, w).
Definition bind {A B} (m : M A) (k : A -> M B) : M B :=
  fun w => match m w with
           | (inl e, w') => (inl e, w')
           | (inr a, w') => k a w'
           end.
Definition catch {A} (m : M A) (h : Exc -> M A) : M A :=
  fun w => match m w with
           | (inl e, w') => h e w'
           | (inr a, w') => (inr a, w')
           end.

Notation "x <- c1 ;; c2" := (bind c1 (fun x => c2))
  (at level 61, c1 at next level, right associativity).
Notation "c1 ;; c2" := (bind c1 (fun _ => c2))
  (at level 61, right associativity).

Definition modify (f : World -> World) : M unit := fun w => (inr tt, f w).
Definition gets {A} (f : World -> A) : M A := fun w => (inr (f w), w).

Definition set_rooms (rs : list Room) (w : World) : World :=
  mkWorld rs (messages w) (sock w) (adapter w) (log w) (faults w) (clock w) (next_oid w).
Definition set_messages (ms : list Message) (w : World) : World :=
  mkWorld (rooms w) ms (sock w) (adapter w) (log w) (faults w) (clock w) (next_oid w).
Definition set_sock (s : Socket) (w : World) : World :=
  mkWorld (rooms w) (messages w) s (adapter w) (log w) (faults w) (clock w) (next_oid w).
Definition set_adapter (a : list (string * nat)) (w : World) : World :=
  mkWorld (rooms w) (messages w) (sock w) a (log w) (faults w) (clock w) (next_oid w).
Definition set_log (l : list Event) (w : World) : World :=
  mkWorld (rooms w) (messages w) (sock w) (adapter w) l (faults w) (clock w) (next_oid w).
Definition set_faults (fs : list bool) (w : World) : World :=
  mkWorld (rooms w) (messages w) (sock w) (adapter w) (log w) fs (clock w) (next_oid w).
Definition set_next_oid (n : Z) (w : World) : World :=
  mkWorld (rooms w) (messages w) (sock w) (adapter w) (log w) (faults w) (clock w) n.

(** One round trip to MongoDB: consumes one entry of the fault oracle and
    rejects when it is [true]; otherwise runs the operation. *)
Definition store_call {A} (op : M A) : M A :=
  fun w => match faults w with
           | true :: fs => (inl StoreFault, set_faults fs w)
           | false :: fs => op (set_faults fs w)
           | [] => op w
           end.

Definition emit (t : Target) (p : Payload) : M unit :=
  modify (fun w => set_log (log w ++ [mkEvent t p]) w).

(** ** Mongoose model operations *)

(** A [required] string path rejects [""] (Mongoose's [checkRequired]). *)
Definition required (s : string) : bool := negb (String.eqb s "").

Definition room_matches (r : string) (d : Room) : bool := String.eqb (roomId d) r.

Fixpoint replace_first (r : string) (d : Room) (rs : list Room) : list Room :=
  match rs with
  | [] => []
  | x :: t => if room_matches r x then d :: t else x :: replace_first r d t
  end.

Fixpoint remove_first (r : string) (rs : list Room) : list Room :=
  match rs with
  | [] => []
  | x :: t => if room_matches r x then t else x :: remove_first r t
  end.

(** [Room.findOne({ roomId: r })] *)
Definition Room_findOne (r : string) : M (option Room) :=
  store_call (gets (fun w => find (room_matches r) (rooms w))).

(** [room.save()]: validation first (on the client), then an insert for a
    new document (the unique index on [roomId] rejects a second one) or an
    update of the stored document. *)
Definition Room_save (isNew : bool) (d : Room) : M unit :=
  if negb (required (roomId d)) then throw ValidationError else
  store_call (fun w =>
    match find (room_matches (roomId d)) (rooms w), isNew with
    | Some _, true => (inl DuplicateKey, w)
    | None, true => (inr tt, set_rooms (rooms w ++ [d]) w)
    | Some _, false => (inr tt, set_rooms (replace_first (roomId d) d (rooms w)) w)
    | None, false => (inl DocumentNotFound, w)
    end).

(** [Room.deleteOne({ roomId: r })] *)
Definition Room_deleteOne (r : string) : M unit :=
  store_call (modify (fun w => set_rooms (remove_first r (rooms w)) w)).

Definition message_matches (r : string) (m : Message) : bool := String.eqb (m_roomId m) r.

(** [message.save()] for a new [Message]. *)
Definition Message_save (m : Message) : M unit :=
  if negb (required (m_roomId m) && required (sender m) && required (text m))
  then throw ValidationError else
  store_call (modify (fun w => set_messages (messages w ++ [m]) w)).

(** [Message.deleteMany({ roomId: r })] *)
Definition Message_deleteMany (r : string) : M unit :=
  store_call (modify (fun w =>
    set_messages (filter (fun m => negb (message_matches r m)) (messages w)) w)).

(** *** Queries: [Message.find(...).sort(...).limit(...)]

    A Mongoose [Query] accumulates options; [.sort(obj)] merges the keys of
    [obj] into the sort document (a key already present gets the new
    direction, in place), and [.limit(n)] sets the limit.  MongoDB executes
    the filter, then the sort, then the limit, whatever order the builder
    calls came in. *)
Record Query := mkQuery {
  q_roomId : string;
  q_sort : list (string * Z);
  q_limit : option nat
}.

Definition Message_find (r : string) : Query := mkQuery r [] None.

Fixpoint sort_merge (k : string) (v : Z) (s : list (string * Z)) : list (string * Z) :=
  match s with
  | [] => [(k, v)]
  | (k', v') :: t => if String.eqb k k' then (k, v) :: t else (k', v') :: sort_merge k v t
  end.

Definition q_sort_by (spec : list (string * Z)) (q : Query) : Query :=
  mkQuery (q_roomId q)
    (fold_left (fun s kv => sort_merge (fst kv) (snd kv) s) spec (q_sort q))
    (q_limit q).

Definition q_limit_to (n : nat) (q : Query) : Query :=
  mkQuery (q_roomId q) (q_sort q) (Some n).

(** Comparison on one sort key (the numeric fields the server sorts by). *)
Definition field_compare (k : string) (a b : Message) : comparison :=
  if String.eqb k "timestamp" then Z.compare (timestamp a) (timestamp b)
  else if String.eqb k "_id" then Z.compare (_id a) (_id b)
  else Eq.

Fixpoint sort_compare (s : list (string * Z)) (a b : Message) : comparison :=
  match s with
  | [] => Eq
  | (k, d) :: t =>
      match (if Z.ltb d 0 then CompOpp (field_compare k a b) else field_compare k a b) with
      | Eq => sort_compare t a b
      | c => c
      end
  end.

(** A stable sort by a comparison (documents that compare equal keep their
    natural order). *)
Fixpoint insert_by (cmp : Message -> Message -> comparison) (x : Message)
    (l : list Message) : list Message :=
  match l with
  | [] => [x]
  | y :: t => match cmp x y with
              | Lt => x :: y :: t
              | _ => y :: insert_by cmp x t
              end
  end.

Definition sort_by (cmp : Message -> Message -> comparison) (l : list Message) : list Message :=
  fold_left (fun acc x => insert_by cmp x acc) l [].

Definition exec_query (db : list Message) (q : Query) : list Message :=
  let sorted := sort_by (sort_compare (q_sort q))
                  (filter (message_matches (q_roomId q)) db) in
  match q_limit q with
  | None => sorted
  | Some n => firstn n sorted
  end.

Definition Message_exec (q : Query) : M (list Message) :=
  store_call (gets (fun w => exec_query (messages w) q)).

(** ** Socket operations *)

Definition get_sock : M Socket := gets sock.

(** [socket.join(r)] *)
Definition socket_join (r : string) : M unit :=
  modify (fun w =>
    let sid := socket_id (sock w) in
    if existsb (fun p => String.eqb (fst p) r && Nat.eqb (snd p) sid) (adapter w)
    then w else set_adapter (adapter w ++ [(r, sid)]) w).

(** Socket.IO removes a closing socket from all its rooms before it fires
    [disconnect]. *)
Definition socket_leave_all : M unit :=
  modify (fun w =>
    let sid := socket_id (sock w) in
    set_adapter (filter (fun p => negb (Nat.eqb (snd p) sid)) (adapter w)) w).

(** [socket.roomId = r; socket.username = u] *)
Definition set_session (r u : string) : M unit :=
  modify (fun w => set_sock (mkSocket (socket_id (sock w)) (Some r) (Some u)) w).

(** JavaScript truthiness of a possibly-[undefined] string. *)
Definition truthy (o : option string) : bool :=
  match o with Some s => required s | None => false end.

(** ** Socket.IO event handlers *)

(** [socket.on('clear-room-chat', async ({ roomId }) => ...)] *)
Definition clear_room_chat_body (r : string) : M unit :=
  Message_deleteMany r;;
  emit (ToRoom r) RoomChatCleared.

Definition clear_room_chat (r : string) : M unit :=
  catch (clear_room_chat_body r)
    (fun _ => s <- get_sock;; emit (ToSocket (socket_id s)) (ErrorEvent "Failed to clear chat")).

(** The query of [join-room]:
    [Message.find({ roomId }).sort({ timestamp: -1 }).limit(50).sort({ timestamp: 1 })]. *)
Definition recent_messages_query (r : string) : Query :=
  q_sort_by [("timestamp", 1)]
    (q_limit_to 50 (q_sort_by [("timestamp", -1)] (Message_find r))).

(** [socket.on('join-room', async (data) => ...)], inside its [try]. *)
Definition join_room_body (r u : string) : M unit :=
  found <- Room_findOne r;;
  now <- gets clock;;
  room <- match found with
          | None =>
              let d := mkRoom r [u] now in
              Room_save true d;; ret d
          | Some d =>
              if existsb (String.eqb u) (participants d) then ret d
              else let d' := mkRoom (roomId d) (participants d ++ [u]) (createdAt d) in
                   Room_save false d';; ret d'
          end;;
  socket_join r;;
  set_session r u;;
  msgs <- Message_exec (recent_messages_query r);;
  s <- get_sock;;
  emit (ToSocket (socket_id s)) (RoomJoined r (participants room) msgs);;
  emit (ToRoomExcept r (socket_id s)) (UserJoined u (participants room)).

Definition join_room (r u : string) : M unit :=
  catch (join_room_body r u)
    (fun _ => s <- get_sock;; emit (ToSocket (socket_id s)) (ErrorEvent "Failed to join room")).

(** [socket.on('send-message', async (data) => ...)], inside its [try]. *)
Definition send_message_body (r snd t : string) : M unit :=
  id <- gets next_oid;;
  modify (fun w => set_next_oid (next_oid w + 1) w);;
  ts <- gets clock;;
  let message := mkMessage id r snd t ts in
  Message_save message;;
  emit (ToRoom r) (NewMessage (_id message) r snd t (timestamp message)).

Definition send_message (r snd t : string) : M unit :=
  catch (send_message_body r snd t)
    (fun _ => s <- get_sock;; emit (ToSocket (socket_id s)) (ErrorEvent "Failed to send message")).

(** [socket.on('typing', (data) => ...)] *)
Definition typing (r u : string) (isTyping : bool) : M unit :=
  s <- get_sock;;
  emit (ToRoomExcept r (socket_id s)) (UserTyping u isTyping).

(** The body of the [disconnect] handler's [try]. *)
Definition disconnect_body (sid : nat) (r u : string) : M unit :=
  found <- Room_findOne r;;
  match found with
  | None => ret tt
  | Some d =>
      let ps := filter (fun p => negb (String.eqb p u)) (participants d) in
      if Nat.eqb (List.length ps) 0 then Room_deleteOne r
      else Room_save false (mkRoom (roomId d) ps (createdAt d));;
           emit (ToRoomExcept r sid) (UserLeft u ps)
  end.

(** [socket.on('disconnect', async () => ...)]; the socket has already left
    its Socket.IO rooms, errors are only logged. *)
Definition disconnect : M unit :=
  socket_leave_all;;
  s <- get_sock;;
  match socket_roomId s, socket_username s with
  | Some r, Some u =>
      if truthy (Some r) && truthy (Some u)
      then catch (disconnect_body (socket_id s) r u) (fun _ => ret tt)
      else ret tt
  | _, _ => ret tt
  end.

(** ** REST endpoints *)

Inductive Body :=
| RoomJson (d : Room)
| MessagesJson (ms : list Message)
| ErrorJson (error : string).

(** [app.get('/api/rooms/:roomId', ...)] *)
Definition get_room (r : string) : M (Z * Body) :=
  catch (found <- Room_findOne r;;
         match found with
         | None => ret (404, ErrorJson "Room not found")
         | Some d => ret (200, RoomJson d)
         end)
    (fun _ => ret (500, ErrorJson "Server error")).

(** [app.get('/api/rooms/:roomId/messages', ...)] *)
Definition get_room_messages (r : string) : M (Z * Body) :=
  catch (ms <- Message_exec (q_sort_by [("timestamp", 1)] (Message_find r));;
         ret (200, MessagesJson ms))
    (fun _ => ret (500, ErrorJson "Server error")).

(** A run of the world through one handler, keeping the final world. *)
Definition run {A} (m : M A) (w : World) : World := snd (m w).

(** Joins on one room, one per connection. *)
Fixpoint join_all (r : string) (us : list (Socket * string)) (w : World) : World :=
  match us with
  | [] => w
  | (s, u) :: t => join_all r t (run (join_room r u) (set_sock s w))
  end.

(** No store round trip of the run faults. *)
Definition no_faults (w : World) : bool := forallb negb (faults w).

(** The next store round trip does not fault. *)
Definition next_ok (w : World) : bool :=
  match faults w with true :: _ => false | _ => true end.

(** ** Concrete scenarios *)

Definition sock0 : Socket := mkSocket 0 None None.
Definition world0 : World := mkWorld [] [] sock0 [] [] [] 1000 1.

Definition msg_at (r : string) (ts : Z) : Message := mkMessage ts r "alice" "hi" ts.

(** A room with 51 stored messages, timestamps 1 .. 51. *)
Definition world51 : World :=
  set_messages (map (fun n => msg_at "r1" (Z.of_nat n)) (seq 1 51)) world0.

Example join_alone :
  log (run (join_room "r1" "alice") world0)
  = [mkEvent (ToSocket 0) (RoomJoined "r1" ["alice"] []);
     mkEvent (ToRoomExcept "r1" 0) (UserJoined "alice" ["alice"])].
Proof. reflexivity. Qed.

(** Alice (connection 0) has joined [r1]. *)
Definition world_alice : World := run (join_room "r1" "alice") world0.

(** Alice (connection 0), then Bob (connection 1), have joined [r1]. *)
Definition world_alice_bob : World :=
  join_all "r1" [(mkSocket 0 None None, "alice"); (mkSocket 1 None None, "bob")] world0.

(** Connection 0 has joined [r1] with the empty username. *)
Definition world_empty_name : World := run (join_room "r1" "") world0.

(** ... then Bob joins on connection 1; the world is seen from connection 0. *)
Definition world_empty_bob : World :=
  set_sock (mkSocket 0 (Some "r1") (Some ""))
    (run (join_room "r1" "bob") (set_sock (mkSocket 1 None None) world_empty_name)).

(** ** Frame reasoning: computations that respect a relation on worlds *)

Definition respects (R : World -> World -> Prop) {A} (m : M A) : Prop :=
  forall w, R w (snd (m w)).

Section Respects.
Variable R : World -> World -> Prop.
Hypothesis R_refl : forall w, R w w.
Hypothesis R_trans : forall w1 w2 w3, R w1 w2 -> R w2 w3 -> R w1 w3.
Hypothesis R_faults : forall w b fs, faults w = b :: fs -> R w (set_faults fs w).

Lemma respects_ret {A} (a : A) : respects R (ret a).
Proof. intro w; apply R_refl. Qed.

Lemma respects_throw {A} (e : Exc) : respects R (@throw A e).
Proof. intro w; apply R_refl. Qed.

Lemma respects_gets {A} (f : World -> A) : respects R (gets f).
Proof. intro w; apply R_refl. Qed.

Lemma respects_modify (f : World -> World) :
  (forall w, R w (f w)) -> respects R (modify f).
Proof. intros H w; apply H. Qed.

Lemma respects_bind {A B} (m : M A) (k : A -> M B) :
  respects R m -> (forall a, respects R (k a)) -> respects R (bind m k).
Proof.
  intros Hm Hk w; unfold bind.
  specialize (Hm w); destruct (m w) as [[e|a] w']; simpl in *; [exact Hm|].
  eapply R_trans; [exact Hm | apply Hk].
Qed.

Lemma respects_catch {A} (m : M A) (h : Exc -> M A) :
  respects R m -> (forall e, respects R (h e)) -> respects R (catch m h).
Proof.
  intros Hm Hh w; unfold catch.
  specialize (Hm w); destruct (m w) as [[e|a] w']; simpl in *; [|exact Hm].
  eapply R_trans; [exact Hm | apply Hh].
Qed.

Lemma respects_store_call {A} (op : M A) :
  respects R op -> respects R (store_call op).
Proof.
  intros Hop w; unfold store_call.
  destruct (faults w) as [|[|] fs] eqn:F; simpl.
  - apply Hop.
  - apply (R_faults w true fs F).
  - eapply R_trans; [apply (R_faults w false fs F) | apply Hop].
Qed.
End Respects.

Create HintDb world.

Ltac close_frame :=
  intros; simpl;
  repeat match goal with |- context [if ?b then _ else _] => destruct b end;
  eauto with world.

(** Unfold the primitives and close frame goals structurally. *)
Ltac frame :=
  repeat match goal with
  | |- respects _ (bind _ _) => apply respects_bind; [close_frame | | intro]
  | |- respects _ (catch _ _) => apply respects_catch; [close_frame | | intro]
  | |- respects _ (store_call _) => apply respects_store_call; [close_frame | close_frame | ]
  | |- respects _ (ret _) => apply respects_ret; close_frame
  | |- respects _ (throw _) => apply respects_throw; close_frame
  | |- respects _ (gets _) => apply respects_gets; close_frame
  | |- respects _ (modify _) => apply respects_modify; close_frame
  | |- respects _ (if ?b then _ else _) => destruct b
  | |- respects _ (match ?x with _ => _ end) => destruct x
  | |- respects _ (emit _ _) => unfold emit
  | |- respects _ (get_sock) => unfold get_sock
  | |- respects _ (socket_join _) => unfold socket_join
  | |- respects _ (socket_leave_all) => unfold socket_leave_all
  | |- respects _ (set_session _ _) => unfold set_session
  | |- respects _ (Message_exec _) => unfold Message_exec
  | |- respects _ (Room_findOne _) => unfold Room_findOne
  | |- respects _ (Message_save _) => unfold Message_save
  | |- respects _ (Message_deleteMany _) => unfold Message_deleteMany
  | |- respects _ (Room_save _ _) => solve [eauto with world]
  | |- respects _ (Room_deleteOne _) => solve [eauto with world]
  end.

(** The relations used below: the Room collection, the whole store, the
    whole store together with the event log. *)
Definition same_rooms (w w' : World) : Prop := rooms w' = rooms w.
Definition same_store (w w' : World) : Prop :=
  rooms w' = rooms w /\ messages w' = messages w.
Definition same_store_log (w w' : World) : Prop :=
  rooms w' = rooms w /\ messages w' = messages w /\ log w' = log w.

Lemma same_rooms_refl w : same_rooms w w.
Proof. reflexivity. Qed.
Lemma same_rooms_trans w1 w2 w3 : same_rooms w1 w2 -> same_rooms w2 w3 -> same_rooms w1 w3.
Proof. unfold same_rooms; congruence. Qed.
Lemma same_rooms_faults w fs : same_rooms w (set_faults fs w).
Proof. reflexivity. Qed.
Lemma same_store_log_refl w : same_store_log w w.
Proof. unfold same_store_log; auto. Qed.
Lemma same_store_log_trans w1 w2 w3 :
  same_store_log w1 w2 -> same_store_log w2 w3 -> same_store_log w1 w3.
Proof. unfold same_store_log; intuition congruence. Qed.
Lemma same_store_log_faults w fs : same_store_log w (set_faults fs w).
Proof. unfold same_store_log; auto. Qed.

(** Store round trips only consume the fault oracle. *)
Definition faults_suffix (w w' : World) : Prop := exists pre, faults w = pre ++ faults w'.

Lemma faults_suffix_refl w : faults_suffix w w.
Proof. exists []; reflexivity. Qed.
Lemma faults_suffix_trans w1 w2 w3 :
  faults_suffix w1 w2 -> faults_suffix w2 w3 -> faults_suffix w1 w3.
Proof.
  intros [p1 H1] [p2 H2]; exists (p1 ++ p2)%list; rewrite H1, H2, app_assoc; reflexivity.
Qed.
Lemma faults_suffix_pop w b fs : faults w = b :: fs -> faults_suffix w (set_faults fs w).
Proof. intro H; exists [b]; exact H. Qed.

Lemma faults_suffix_same w w' : faults w' = faults w -> faults_suffix w w'.
Proof. intro H; exists []; rewrite H; reflexivity. Qed.

#[export] Hint Resolve faults_suffix_refl faults_suffix_trans faults_suffix_pop
  faults_suffix_same : world.
#[export] Hint Resolve same_rooms_refl same_rooms_trans same_rooms_faults
  same_store_log_refl same_store_log_trans same_store_log_faults : world.
#[export] Hint Unfold same_rooms same_store_log : world.

Lemma store_call_cases {A} (op : M A) w :
  exists fs, store_call op w = (inl StoreFault, set_faults fs w)
             \/ store_call op w = op (set_faults fs w).
Proof.
  unfold store_call; destruct (faults w) as [|[|] fs].
  - exists (faults w); right.
    destruct w; simpl in *; subst; reflexivity.
  - exists fs; left; reflexivity.
  - exists fs; right; reflexivity.
Qed.

Lemma bind_inr {A B} (m : M A) (k : A -> M B) w a w' :
  m w = (inr a, w') -> bind m k w = k a w'.
Proof. intro E; unfold bind; rewrite E; reflexivity. Qed.

Lemma bind_inl {A B} (m : M A) (k : A -> M B) w e w' :
  m w = (inl e, w') -> bind m k w = (inl e, w').
Proof. intro E; unfold bind; rewrite E; reflexivity. Qed.

Lemma join_room_tail_rooms r u (room : Room) :
  respects same_rooms
    (socket_join r;;
     set_session r u;;
     msgs <- Message_exec (recent_messages_query r);;
     s <- get_sock;;
     emit (ToSocket (socket_id s)) (RoomJoined r (participants room) msgs);;
     emit (ToRoomExcept r (socket_id s)) (UserJoined u (participants room))).
Proof. frame. Qed.

Lemma catch_bind_inr {A B} (m : M A) (k : A -> M B) h w a w' :
  m w = (inr a, w') -> catch (bind m k) h w = catch (k a) h w'.
Proof. intro E; unfold catch, bind; rewrite E; reflexivity. Qed.

Lemma catch_bind_inl {A B} (m : M A) (k : A -> M B) h w e w' :
  m w = (inl e, w') -> catch (bind m k) h w = h e w'.
Proof. intro E; unfold catch, bind; rewrite E; reflexivity. Qed.

Lemma findOne_result r w :
  exists fs, Room_findOne r w = (inl StoreFault, set_faults fs w)
             \/ Room_findOne r w = (inr (find (room_matches r) (rooms w)), set_faults fs w).
Proof.
  destruct (store_call_cases (gets (fun w => find (room_matches r) (rooms w))) w)
    as [fs [E|E]]; exists fs; unfold Room_findOne; rewrite E; [left|right]; reflexivity.
Qed.

Lemma join_room_handler_rooms :
  forall e, respects same_rooms
    ((fun _ : Exc => s <- get_sock;; emit (ToSocket (socket_id s)) (ErrorEvent "Failed to join room")) e).
Proof. intro e; cbv beta; frame. Qed.

Lemma catch_inr {A} (m : M A) h w a w' :
  m w = (inr a, w') -> catch m h w = (inr a, w').
Proof. intro E; unfold catch; rewrite E; reflexivity. Qed.

Lemma store_call_ok {A} (op : M A) w :
  no_faults w = true ->
  exists fs, forallb negb fs = true /\ store_call op w = op (set_faults fs w).
Proof.
  unfold no_faults, store_call; destruct (faults w) as [|[|] fs] eqn:F; simpl; intro H.
  - exists []; split; [reflexivity|].
    destruct w; simpl in *; subst; reflexivity.
  - discriminate.
  - exists fs; split; [exact H | reflexivity].
Qed.

Lemma findOne_ok r w :
  no_faults w = true ->
  exists fs, forallb negb fs = true
    /\ Room_findOne r w = (inr (find (room_matches r) (rooms w)), set_faults fs w).
Proof.
  intro H; destruct (store_call_ok (gets (fun w => find (room_matches r) (rooms w))) w H)
    as [fs [Hfs E]].
  exists fs; split; [exact Hfs|]; unfold Room_findOne; rewrite E; reflexivity.
Qed.

Lemma find_not_in r rs : ~ In r (map roomId rs) -> find (room_matches r) rs = None.
Proof.
  induction rs as [|x t IH]; simpl; intro H; [reflexivity|].
  unfold room_matches at 1; destruct (String.eqb_spec (roomId x) r) as [E|E].
  - exfalso; apply H; left; exact E.
  - apply IH; intro; apply H; right; assumption.
Qed.

Lemma room_matches_true r x : room_matches r x = true -> roomId x = r.
Proof. unfold room_matches; apply String.eqb_eq. Qed.

Lemma find_remove_first r rs :
  NoDup (map roomId rs) -> find (room_matches r) (remove_first r rs) = None.
Proof.
  induction rs as [|x t IH]; simpl; intro H; [reflexivity|].
  inversion H as [|? ? Hx Ht]; subst.
  destruct (room_matches r x) eqn:E.
  - apply find_not_in; rewrite <- (room_matches_true r x E); exact Hx.
  - simpl; rewrite E; apply IH; exact Ht.
Qed.

Lemma find_replace_first r d' rs :
  room_matches r d' = true ->
  find (room_matches r) rs <> None ->
  find (room_matches r) (replace_first r d' rs) = Some d'.
Proof.
  intro Hd; induction rs as [|x t IH]; simpl; intro H; [contradiction|].
  destruct (room_matches r x) eqn:E; simpl.
  - rewrite Hd; reflexivity.
  - rewrite E; apply IH; exact H.
Qed.

(** A property of the Room collection that a step keeps. *)
Definition keeps (P : list Room -> Prop) (w w' : World) : Prop := P (rooms w) -> P (rooms w').

Lemma keeps_refl P w : keeps P w w.
Proof. unfold keeps; auto. Qed.
Lemma keeps_trans P w1 w2 w3 : keeps P w1 w2 -> keeps P w2 w3 -> keeps P w1 w3.
Proof. unfold keeps; auto. Qed.
Lemma keeps_same P w w' : rooms w' = rooms w -> keeps P w w'.
Proof. unfold keeps; intros E H; rewrite E; exact H. Qed.

(** Room ids are unique (the schema's [unique: true] index). *)
Definition unique_ids (rs : list Room) : Prop := NoDup (map roomId rs).

(** Every stored room id passes the [required] validator. *)
Definition nonempty_ids (rs : list Room) : Prop := Forall (fun d => roomId d <> "") rs.

(** Every stored room has a non-empty, duplicate-free participant list. *)
Definition good_participants (rs : list Room) : Prop :=
  Forall (fun d => participants d <> [] /\ NoDup (participants d)) rs.

Lemma in_remove_first r x rs : In x (remove_first r rs) -> In x rs.
Proof.
  induction rs as [|y t IH]; simpl; [tauto|].
  destruct (room_matches r y); simpl; [tauto | intros [H|H]; [left; exact H | right; apply IH, H]].
Qed.

Lemma map_replace_first r d rs :
  roomId d = r -> map roomId (replace_first r d rs) = map roomId rs.
Proof.
  intro Hd; induction rs as [|x t IH]; simpl; [reflexivity|].
  destruct (room_matches r x) eqn:E; simpl.
  - rewrite (room_matches_true r x E), Hd; reflexivity.
  - rewrite IH; reflexivity.
Qed.

Lemma unique_ids_remove_first r rs : unique_ids rs -> unique_ids (remove_first r rs).
Proof.
  unfold unique_ids; induction rs as [|x t IH]; simpl; intro H; [exact H|].
  inversion H as [|? ? Hx Ht]; subst.
  destruct (room_matches r x); [exact Ht|].
  simpl; constructor; [|apply IH, Ht].
  intro Hin; apply Hx; apply in_map_iff in Hin as [y [Ey Hy]].
  rewrite <- Ey; apply in_map, (in_remove_first r), Hy.
Qed.

Lemma find_none_not_in r rs : find (room_matches r) rs = None -> ~ In r (map roomId rs).
Proof.
  intros H Hin; apply in_map_iff in Hin as [x [Ex Hx]].
  pose proof (find_none _ _ H x Hx) as F; unfold room_matches in F.
  rewrite Ex, String.eqb_refl in F; discriminate.
Qed.

Lemma unique_ids_append d rs :
  find (room_matches (roomId d)) rs = None -> unique_ids rs -> unique_ids (rs ++ [d]).
Proof.
  unfold unique_ids; intros Hf H; rewrite map_app; simpl.
  apply (Permutation_NoDup (Permutation_cons_append _ _)).
  constructor; [apply find_none_not_in, Hf | exact H].
Qed.

Lemma Forall_replace_first (P : Room -> Prop) r d rs :
  P d -> Forall P rs -> Forall P (replace_first r d rs).
Proof.
  intros Hd; induction rs as [|x t IH]; simpl; intro H; [exact H|].
  inversion H; subst; destruct (room_matches r x); constructor; auto.
Qed.

Lemma Forall_remove_first (P : Room -> Prop) r rs : Forall P rs -> Forall P (remove_first r rs).
Proof.
  induction rs as [|x t IH]; simpl; intro H; [exact H|].
  inversion H; subst; destruct (room_matches r x); [assumption | constructor; auto].
Qed.

Lemma required_neq s : required s = true -> s <> "".
Proof. unfold required; intros H E; subst; discriminate. Qed.

Lemma Room_save_unique_ids b d : respects (keeps unique_ids) (Room_save b d).
Proof.
  intro w; unfold Room_save; destruct (negb (required (roomId d))); [apply keeps_refl|].
  unfold store_call, keeps; destruct (faults w) as [|[|] fs]; simpl; [| tauto |];
  destruct (find (room_matches (roomId d)) (rooms _)) eqn:F, b; simpl; try tauto;
  first [apply unique_ids_append; exact F
        | unfold unique_ids; rewrite map_replace_first; tauto].
Qed.

Lemma Room_deleteOne_unique_ids r : respects (keeps unique_ids) (Room_deleteOne r).
Proof.
  intro w; unfold Room_deleteOne, store_call, modify, keeps;
  destruct (faults w) as [|[|] fs]; simpl; try tauto; apply unique_ids_remove_first.
Qed.

Lemma Room_save_nonempty_ids b d : respects (keeps nonempty_ids) (Room_save b d).
Proof.
  intro w; unfold Room_save; destruct (required (roomId d)) eqn:Req; simpl; [|apply keeps_refl].
  pose proof (required_neq _ Req) as Hd.
  unfold store_call, keeps, nonempty_ids; destruct (faults w) as [|[|] fs]; simpl; [| tauto |];
  destruct (find (room_matches (roomId d)) (rooms _)), b; simpl; try tauto;
  intro H; first [apply Forall_app; split; [exact H | constructor; [exact Hd | constructor]]
                 | apply Forall_replace_first; assumption].
Qed.

Lemma Room_deleteOne_nonempty_ids r : respects (keeps nonempty_ids) (Room_deleteOne r).
Proof.
  intro w; unfold Room_deleteOne, store_call, modify, keeps;
  destruct (faults w) as [|[|] fs]; simpl; try tauto; apply Forall_remove_first.
Qed.

#[export] Hint Resolve keeps_refl keeps_trans keeps_same Room_save_unique_ids
  Room_deleteOne_unique_ids Room_save_nonempty_ids Room_deleteOne_nonempty_ids : world.

(** The Message collection, the id counter, and the events a closing
    connection may cause. *)
Definition same_messages (w w' : World) : Prop := messages w' = messages w.

Lemma same_messages_refl w : same_messages w w.
Proof. reflexivity. Qed.
Lemma same_messages_trans w1 w2 w3 :
  same_messages w1 w2 -> same_messages w2 w3 -> same_messages w1 w3.
Proof. unfold same_messages; congruence. Qed.
Lemma same_messages_faults w fs : same_messages w (set_faults fs w).
Proof. reflexivity. Qed.
Lemma Room_save_same_messages b d : respects same_messages (Room_save b d).
Proof.
  intro w; unfold Room_save, store_call; destruct (negb (required (roomId d))); [reflexivity|].
  destruct (faults w) as [|[|] fs]; [| reflexivity |];
  destruct (find _ _), b; reflexivity.
Qed.
Lemma Room_deleteOne_same_messages r : respects same_messages (Room_deleteOne r).
Proof. intro w; unfold Room_deleteOne, store_call; destruct (faults w) as [|[|] fs]; reflexivity. Qed.

#[export] Hint Resolve same_messages_refl same_messages_trans same_messages_faults
  Room_save_same_messages Room_deleteOne_same_messages : world.
#[export] Hint Unfold same_messages : world.

Definition same_oid (w w' : World) : Prop := next_oid w' = next_oid w.

Lemma same_oid_refl w : same_oid w w.
Proof. reflexivity. Qed.
Lemma same_oid_trans w1 w2 w3 : same_oid w1 w2 -> same_oid w2 w3 -> same_oid w1 w3.
Proof. unfold same_oid; congruence. Qed.
Lemma same_oid_faults w fs : same_oid w (set_faults fs w).
Proof. reflexivity. Qed.
Lemma Room_save_same_oid b d : respects same_oid (Room_save b d).
Proof.
  intro w; unfold Room_save, store_call; destruct (negb (required (roomId d))); [reflexivity|].
  destruct (faults w) as [|[|] fs]; [| reflexivity |];
  destruct (find _ _), b; reflexivity.
Qed.
Lemma Room_deleteOne_same_oid r : respects same_oid (Room_deleteOne r).
Proof. intro w; unfold Room_deleteOne, store_call; destruct (faults w) as [|[|] fs]; reflexivity. Qed.

#[export] Hint Resolve same_oid_refl same_oid_trans same_oid_faults
  Room_save_same_oid Room_deleteOne_same_oid : world.
#[export] Hint Unfold same_oid : world.

(** Events a closing connection [sid] may cause: [user-left] to the rest of
    a room. *)
Definition user_left_from (sid : nat) (e : Event) : Prop :=
  exists r u ps, e = mkEvent (ToRoomExcept r sid) (UserLeft u ps).

Definition left_only (sid : nat) (w w' : World) : Prop :=
  sock w' = sock w /\ exists l, log w' = log w ++ l /\ Forall (user_left_from sid) l.

Lemma left_only_refl sid w : left_only sid w w.
Proof. split; [reflexivity | exists []; rewrite app_nil_r; auto]. Qed.
Lemma left_only_trans sid w1 w2 w3 :
  left_only sid w1 w2 -> left_only sid w2 w3 -> left_only sid w1 w3.
Proof.
  intros [S1 [l1 [L1 F1]]] [S2 [l2 [L2 F2]]]; split; [congruence|].
  exists (l1 ++ l2); split; [rewrite L2, L1, app_assoc; reflexivity | apply Forall_app; auto].
Qed.
Lemma left_only_faults sid w fs : left_only sid w (set_faults fs w).
Proof. split; [reflexivity | exists []; rewrite app_nil_r; auto]. Qed.
Lemma left_only_same sid w w' : sock w' = sock w -> log w' = log w -> left_only sid w w'.
Proof. intros S L; split; [exact S | exists []; rewrite app_nil_r; auto]. Qed.
Lemma left_only_emit sid r u ps w :
  left_only sid w (set_log (log w ++ [mkEvent (ToRoomExcept r sid) (UserLeft u ps)]) w).
Proof.
  split; [reflexivity|]; eexists; split; [reflexivity|].
  constructor; [exists r, u, ps; reflexivity | constructor].
Qed.
Lemma Room_save_left_only sid b d : respects (left_only sid) (Room_save b d).
Proof.
  intro w; apply left_only_same;
  unfold Room_save, store_call; destruct (negb (required (roomId d))); try reflexivity;
  destruct (faults w) as [|[|] fs]; try reflexivity;
  destruct (find _ _), b; reflexivity.
Qed.
Lemma Room_deleteOne_left_only sid r : respects (left_only sid) (Room_deleteOne r).
Proof.
  intro w; apply left_only_same;
  unfold Room_deleteOne, store_call; destruct (faults w) as [|[|] fs]; reflexivity.
Qed.

#[export] Hint Resolve left_only_refl left_only_trans left_only_faults left_only_emit
  Room_save_left_only Room_deleteOne_left_only : world.

(** Stored message ids are pairwise distinct and all below the id
    counter. *)
Definition fresh_ids (w : World) : Prop :=
  NoDup (map _id (messages w)) /\ Forall (fun m => _id m < next_oid w) (messages w).

Definition keeps_fresh (w w' : World) : Prop := fresh_ids w -> fresh_ids w'.

Lemma keeps_fresh_refl w : keeps_fresh w w.
Proof. unfold keeps_fresh; auto. Qed.
Lemma keeps_fresh_trans w1 w2 w3 : keeps_fresh w1 w2 -> keeps_fresh w2 w3 -> keeps_fresh w1 w3.
Proof. unfold keeps_fresh; auto. Qed.
Lemma keeps_fresh_same w w' :
  messages w' = messages w -> next_oid w' = next_oid w -> keeps_fresh w w'.
Proof. unfold keeps_fresh, fresh_ids; intros M O; rewrite M, O; auto. Qed.
Lemma keeps_fresh_faults w fs : keeps_fresh w (set_faults fs w).
Proof. apply keeps_fresh_same; reflexivity. Qed.
Lemma keeps_fresh_sock w s : keeps_fresh w (set_sock s w).
Proof. apply keeps_fresh_same; reflexivity. Qed.
Lemma keeps_fresh_adapter w a : keeps_fresh w (set_adapter a w).
Proof. apply keeps_fresh_same; reflexivity. Qed.
Lemma keeps_fresh_log w l : keeps_fresh w (set_log l w).
Proof. apply keeps_fresh_same; reflexivity. Qed.

Lemma NoDup_map_filter {A B} (f : A -> B) (p : A -> bool) l :
  NoDup (map f l) -> NoDup (map f (filter p l)).
Proof.
  induction l as [|x t IH]; simpl; [auto|]; intro H; inversion H; subst.
  destruct (p x); simpl; [constructor|]; auto.
  intro Hin; apply H2; rewrite in_map_iff in Hin |- *.
  destruct Hin as [y [E Hy]]; exists y; split; [exact E | apply filter_In in Hy; apply Hy].
Qed.

Lemma keeps_fresh_filter f w : keeps_fresh w (set_messages (filter f (messages w)) w).
Proof.
  intros [N F]; split; cbn; [apply NoDup_map_filter; exact N|].
  apply Forall_forall; intros m Hm; apply filter_In in Hm.
  rewrite Forall_forall in F; apply F, Hm.
Qed.

Lemma Room_save_keeps_fresh b d : respects keeps_fresh (Room_save b d).
Proof. intro w; apply keeps_fresh_same; [apply Room_save_same_messages | apply Room_save_same_oid]. Qed.
Lemma Room_deleteOne_keeps_fresh r : respects keeps_fresh (Room_deleteOne r).
Proof.
  intro w; apply keeps_fresh_same; [apply Room_deleteOne_same_messages | apply Room_deleteOne_same_oid].
Qed.

#[export] Hint Resolve keeps_fresh_refl keeps_fresh_trans keeps_fresh_faults keeps_fresh_sock
  keeps_fresh_adapter keeps_fresh_log keeps_fresh_filter
  Room_save_keeps_fresh Room_deleteOne_keeps_fresh : world.



(** The [disconnect] handler after Socket.IO has removed the socket from
    its rooms. *)
Lemma disconnect_unfold w :
  disconnect w =
  (match socket_roomId (sock w), socket_username (sock w) with
   | Some r, Some u =>
       if truthy (Some r) && truthy (Some u)
       then catch (disconnect_body (socket_id (sock w)) r u) (fun _ => ret tt)
       else ret tt
   | _, _ => ret tt
   end) (snd (socket_leave_all w)).
Proof. reflexivity. Qed.

Lemma truthy_some s : s <> "" -> truthy (Some s) = true.
Proof. intro H; unfold truthy, required; apply negb_true_iff, String.eqb_neq; exact H. Qed.

Lemma get_room_none r w :
  find (room_matches r) (rooms w) = None -> next_ok w = true ->
  fst (get_room r w) = inr (404, ErrorJson "Room not found").
Proof.
  unfold next_ok, get_room, catch, bind, Room_findOne, store_call, gets.
  destruct (faults w) as [|[|] fs]; simpl; intros Hf Hn; try discriminate; rewrite Hf; reflexivity.
Qed.

(** A [disconnect] whose [socket.username] is the empty string fails the
    handler's truthiness guard: no store round trip, no event. *)
Lemma disconnect_empty_username_frame w :
  socket_username (sock w) = Some "" ->
  rooms (run disconnect w) = rooms w /\ messages (run disconnect w) = messages w /\
  log (run disconnect w) = log w /\ faults (run disconnect w) = faults w.
Proof.
  intro H; unfold run; rewrite disconnect_unfold, H.
  destruct (socket_roomId (sock w)); [|repeat split].
  change (truthy (Some "")) with false; rewrite andb_false_r; repeat split.
Qed.

Lemma get_room_some r d w :
  find (room_matches r) (rooms w) = Some d -> next_ok w = true ->
  fst (get_room r w) = inr (200, RoomJson d).
Proof.
  unfold next_ok, get_room, catch, bind, Room_findOne, store_call, gets.
  destruct (faults w) as [|[|] fs]; simpl; intros Hf Hn; try discriminate; rewrite Hf; reflexivity.
Qed.

(** ** Claims *)

(** C7: for a room whose participant list already contains [u], a
    [join-room] with that room id and [u] leaves the Room collection, and so
    the room's participant list, unchanged: no duplicate is appended. *)
Theorem join_room_present_idempotent r u w d :
  find (room_matches r) (rooms w) = Some d -> In u (participants d) ->
  rooms (run (join_room r u) w) = rooms w.
Proof.
  intros Hf Hin. unfold run, join_room, join_room_body.
  destruct (findOne_result r w) as [fs [E|E]].
  - rewrite (catch_bind_inl _ _ _ _ _ _ E). apply (join_room_handler_rooms StoreFault (set_faults fs w)).
  - rewrite (catch_bind_inr _ _ _ _ _ _ E).
    rewrite (catch_bind_inr _ _ _ _ _ _ (eq_refl : gets clock (set_faults fs w) = (inr (clock w), set_faults fs w))).
    rewrite Hf.
    assert (Hx : existsb (String.eqb u) (participants d) = true)
      by (apply existsb_exists; exists u; split; [exact Hin | apply String.eqb_refl]).
    cbv beta iota. rewrite Hx.
    rewrite (catch_bind_inr _ _ _ _ _ _ (eq_refl : ret d (set_faults fs w) = (inr d, set_faults fs w))).
    exact (respects_catch same_rooms same_rooms_trans _ _ (join_room_tail_rooms r u d) join_room_handler_rooms (set_faults fs w)).
Qed.

(** C3 (as amended): for a room whose participant list is exactly [[u]]
    with [u] a non-empty username (and a non-empty room id, as every stored
    room has), a [disconnect] of the connection bound to that room and [u],
    with no store fault, deletes the Room record (room ids are unique in
    the store, by the schema's unique index), and a following [get-room]
    on that id answers 404 [{error: "Room not found"}].  A connection whose
    username is the empty string is treated as never joined (the handler's
    truthiness guard): whatever the store does, its [disconnect] leaves the
    Room collection as it was, so its room stays in place and [get-room]
    still answers 200 with it. *)
Theorem disconnect_last_participant_deletes :
  (forall r u d w,
   r <> "" -> u <> "" ->
   socket_roomId (sock w) = Some r -> socket_username (sock w) = Some u ->
   find (room_matches r) (rooms w) = Some d -> participants d = [u] ->
   NoDup (map roomId (rooms w)) -> no_faults w = true ->
   find (room_matches r) (rooms (run disconnect w)) = None /\
   (forall fs, next_ok (set_faults fs (run disconnect w)) = true ->
    fst (get_room r (set_faults fs (run disconnect w))) = inr (404, ErrorJson "Room not found"))) /\
  (forall r d w,
   socket_roomId (sock w) = Some r -> socket_username (sock w) = Some "" ->
   find (room_matches r) (rooms w) = Some d ->
   rooms (run disconnect w) = rooms w /\
   find (room_matches r) (rooms (run disconnect w)) = Some d /\
   (forall fs, next_ok (set_faults fs (run disconnect w)) = true ->
    fst (get_room r (set_faults fs (run disconnect w))) = inr (200, RoomJson d))).
Proof.
  split.
  2:{ intros r d w _ He Hf.
      destruct (disconnect_empty_username_frame w He) as [R _].
      assert (Hf' : find (room_matches r) (rooms (run disconnect w)) = Some d) by (rewrite R; exact Hf).
      split; [exact R | split; [exact Hf' |]].
      intros fs Hn; apply get_room_some; [exact Hf' | exact Hn]. }
  intros r u d w Hr Hu Hsr Hsu Hf Hp Hnd Hnf.
  assert (Hdel : find (room_matches r) (rooms (run disconnect w)) = None).
  { unfold run; rewrite disconnect_unfold, Hsr, Hsu, (truthy_some r Hr), (truthy_some u Hu); cbn [andb].
    unfold disconnect_body.
    destruct (findOne_ok r (snd (socket_leave_all w)) Hnf) as [fs [Hfs E]].
    rewrite (catch_bind_inr _ _ _ _ _ _ E).
    cbn [rooms snd socket_leave_all modify set_adapter]. rewrite Hf, Hp. cbv beta iota.
    cbn [filter]; rewrite String.eqb_refl; cbn [negb filter List.length Nat.eqb].
    match goal with |- context [catch _ _ ?w2] => set (w2' := w2) end.
    destruct (store_call_ok (modify (fun w => set_rooms (remove_first r (rooms w)) w)) w2' Hfs)
      as [fs2 [_ E2]].
    unfold Room_deleteOne; rewrite (catch_inr _ _ _ _ _ E2); cbn.
    apply find_remove_first; exact Hnd. }
  split; [exact Hdel|].
  intros fs Hn; apply get_room_none; [exact Hdel | exact Hn].
Qed.

(** C4 (as amended): for a room with a participant [v] other than the
    non-empty username [u] of the disconnecting connection (bound to that
    room, whose id is non-empty), a [disconnect] with no store fault keeps
    the Room record, with participant list the old one with [u] filtered
    out (all other participants, in order), and broadcasts
    [user-left {username: u, participants}] to the room's members except
    the disconnecting connection.  A connection whose username is the empty
    string is treated as never joined: whatever the store would do, its
    [disconnect] changes no Room and no Message, emits no event and makes
    no store round trip. *)
Theorem disconnect_other_participant_removed :
  (forall r u v d w,
   r <> "" -> u <> "" ->
   socket_roomId (sock w) = Some r -> socket_username (sock w) = Some u ->
   find (room_matches r) (rooms w) = Some d ->
   In u (participants d) -> In v (participants d) -> v <> u ->
   no_faults w = true ->
   let ps' := filter (fun p => negb (String.eqb p u)) (participants d) in
   find (room_matches r) (rooms (run disconnect w)) = Some (mkRoom r ps' (createdAt d)) /\
   (forall p, In p ps' <-> In p (participants d) /\ p <> u) /\
   log (run disconnect w)
   = (log w ++ [mkEvent (ToRoomExcept r (socket_id (sock w))) (UserLeft u ps')])%list) /\
  (forall w, socket_username (sock w) = Some "" ->
   rooms (run disconnect w) = rooms w /\ messages (run disconnect w) = messages w /\
   log (run disconnect w) = log w /\ faults (run disconnect w) = faults w).
Proof.
  split; [|exact disconnect_empty_username_frame].
  intros r u v d w Hr Hu Hsr Hsu Hf Hinu Hinv Hvu Hnf ps'.
  assert (Hin : forall p, In p ps' <-> In p (participants d) /\ p <> u).
  { intro p; unfold ps'; rewrite filter_In, negb_true_iff, String.eqb_neq; tauto. }
  assert (Hlen : Nat.eqb (List.length ps') 0 = false).
  { apply Nat.eqb_neq; intro L; apply length_zero_iff_nil in L.
    assert (Hv : In v ps') by (apply Hin; split; assumption).
    rewrite L in Hv; exact Hv. }
  assert (Hrd : roomId d = r) by exact (room_matches_true r d (proj2 (find_some _ _ Hf))).
  unfold run; rewrite disconnect_unfold, Hsr, Hsu, (truthy_some r Hr), (truthy_some u Hu); cbn [andb].
  unfold disconnect_body.
  destruct (findOne_ok r (snd (socket_leave_all w)) Hnf) as [fs [Hfs E]].
  rewrite (catch_bind_inr _ _ _ _ _ _ E).
  cbn [rooms snd socket_leave_all modify set_adapter]. rewrite Hf. cbv beta iota.
  fold ps'. rewrite Hlen.
  match goal with |- context [catch _ _ ?w2] => set (w2' := w2) end.
  rewrite Hrd.
  assert (Hreq : required r = true) by exact (truthy_some r Hr).
  set (d' := mkRoom r ps' (createdAt d)).
  assert (E2 : Room_save false d' w2'
               = (inr tt, set_rooms (replace_first r d' (rooms w)) (set_faults (tl fs) w2'))).
  { unfold Room_save; change (roomId d') with r; rewrite Hreq; cbn [negb].
    unfold store_call; unfold w2' at 1; cbn [faults set_faults].
    destruct fs as [|[|] fs2]; try discriminate; cbn; rewrite Hf; reflexivity. }
  rewrite (catch_bind_inr _ _ _ _ _ _ E2).
  cbn.
  split; [|split; [exact Hin | reflexivity]].
  apply find_replace_first; [apply String.eqb_refl | rewrite Hf; discriminate].
Qed.

(** C9: a [disconnect] of a connection whose session fields are unset
    changes no Room and no Message record and emits nothing; nor does the
    [disconnect] of a joined connection whose room no longer has a Room
    record (in particular, no [user-left] is emitted). *)
Theorem disconnect_frame_unjoined_or_roomless w :
  (socket_roomId (sock w) = None -> socket_username (sock w) = None ->
   rooms (run disconnect w) = rooms w /\ messages (run disconnect w) = messages w
   /\ log (run disconnect w) = log w) /\
  (forall r u, socket_roomId (sock w) = Some r -> socket_username (sock w) = Some u ->
   find (room_matches r) (rooms w) = None ->
   rooms (run disconnect w) = rooms w /\ messages (run disconnect w) = messages w
   /\ log (run disconnect w) = log w).
Proof.
  split.
  - intros Hr _; unfold run; rewrite disconnect_unfold, Hr; simpl; auto.
  - intros r u Hr Hu Hf; unfold run; rewrite disconnect_unfold, Hr, Hu.
    destruct (truthy (Some r) && truthy (Some u)); [|simpl; auto].
    unfold disconnect_body.
    destruct (findOne_result r (snd (socket_leave_all w))) as [fs [E|E]].
    + rewrite (catch_bind_inl _ _ _ _ _ _ E); simpl; auto.
    + rewrite (catch_bind_inr _ _ _ _ _ _ E).
      cbn [rooms snd socket_leave_all modify set_adapter]; rewrite Hf; simpl; auto.
Qed.

(** C10: [clear-room-chat], successful or not, leaves every Room record
    (participants and [createdAt] included) exactly as it was. *)
Theorem clear_room_chat_keeps_rooms r w :
  rooms (run (clear_room_chat r) w) = rooms w.
Proof.
  assert (H : respects same_rooms (clear_room_chat r))
    by (unfold clear_room_chat, clear_room_chat_body; frame).
  exact (H w).
Qed.

(** C5: after a successful [clear-room-chat r] the Message collection is
    the old one without the messages of room [r]: none of [r]'s messages
    is left and every message of another room is kept; [room-chat-cleared]
    goes to the whole Socket.IO room [r] ([io.to(r)], which includes the
    caller when it has joined [r]). *)
Theorem clear_room_chat_deletes_exactly r w :
  fst (clear_room_chat_body r w) = inr tt ->
  let w' := run (clear_room_chat r) w in
  messages w' = filter (fun m => negb (message_matches r m)) (messages w) /\
  (forall m, In m (messages w') -> m_roomId m <> r) /\
  (forall m, m_roomId m <> r -> (In m (messages w') <-> In m (messages w))) /\
  log w' = log w ++ [mkEvent (ToRoom r) RoomChatCleared].
Proof.
  unfold run, clear_room_chat, clear_room_chat_body, catch, bind, Message_deleteMany, store_call.
  destruct (faults w) as [|[|] fs]; simpl; intro H; try discriminate;
  (split; [reflexivity | split; [| split]]; [| | reflexivity]);
  intro m; rewrite filter_In, negb_true_iff; unfold message_matches;
  rewrite String.eqb_neq; tauto.
Qed.

(** C6: when the body of [send-message] succeeds, the new Message, with
    the server clock as its timestamp and a fresh id, is appended to the
    store and [new-message] goes to the whole room [r] ([io.to(r)], the
    sender's connection included when it has joined [r]); when it fails,
    no Message is added and only an [error] event to the sender's
    connection is emitted. *)
Theorem send_message_outcomes r snd t w :
  let w' := run (send_message r snd t) w in
  let id := next_oid w in
  (fst (send_message_body r snd t w) = inr tt ->
   messages w' = messages w ++ [mkMessage id r snd t (clock w)] /\
   log w' = log w ++ [mkEvent (ToRoom r) (NewMessage id r snd t (clock w))]) /\
  (forall e, fst (send_message_body r snd t w) = inl e ->
   messages w' = messages w /\ rooms w' = rooms w /\
   log w' = log w ++ [mkEvent (ToSocket (socket_id (sock w))) (ErrorEvent "Failed to send message")]).
Proof.
  unfold run, send_message, send_message_body, catch, bind, gets, modify, Message_save, store_call, emit.
  cbn -[required].
  destruct (required r && required snd && required t); cbn;
  [destruct (faults w) as [|[|] fs]|]; cbn;
  (split; [intro H; try discriminate; split; reflexivity
          | intros e H; try discriminate; repeat split]).
Qed.

(** *** The stable sort *)

Section SortBy.
Variable cmp : Message -> Message -> comparison.
Variable le : Message -> Message -> Prop.
Hypothesis cmp_lt : forall a b, cmp a b = Lt -> le a b.
Hypothesis cmp_not_lt : forall a b, cmp a b <> Lt -> le b a.

Lemma insert_by_perm x l : Permutation (insert_by cmp x l) (x :: l).
Proof.
  induction l as [|y t IH]; simpl; [reflexivity|].
  destruct (cmp x y); try reflexivity;
  (eapply perm_trans; [apply perm_skip, IH | apply perm_swap]).
Qed.

Lemma insert_by_hd a x l : HdRel le a l -> le a x -> HdRel le a (insert_by cmp x l).
Proof.
  intros Hl Hx; destruct l as [|y t]; simpl; [constructor; exact Hx|].
  inversion Hl; subst; destruct (cmp x y); constructor; assumption.
Qed.

Lemma insert_by_sorted x l : Sorted le l -> Sorted le (insert_by cmp x l).
Proof.
  induction l as [|y t IH]; simpl; intro H; [repeat constructor|].
  apply Sorted_inv in H as [Ht Hy].
  destruct (cmp x y) eqn:E.
  - constructor; [apply IH, Ht | apply insert_by_hd; [exact Hy | apply cmp_not_lt; congruence]].
  - constructor; [constructor; assumption | constructor; apply cmp_lt; exact E].
  - constructor; [apply IH, Ht | apply insert_by_hd; [exact Hy | apply cmp_not_lt; congruence]].
Qed.

Lemma sort_by_perm_acc l acc :
  Permutation (fold_left (fun acc x => insert_by cmp x acc) l acc) (l ++ acc).
Proof.
  revert acc; induction l as [|x t IH]; intro acc; simpl; [reflexivity|].
  eapply perm_trans; [apply IH|].
  eapply perm_trans; [apply Permutation_app_head, insert_by_perm|].
  symmetry; apply Permutation_middle.
Qed.

Lemma sort_by_perm l : Permutation (sort_by cmp l) l.
Proof. unfold sort_by; rewrite <- (app_nil_r l) at 2; apply sort_by_perm_acc. Qed.

Lemma sort_by_sorted_acc l acc :
  Sorted le acc -> Sorted le (fold_left (fun acc x => insert_by cmp x acc) l acc).
Proof.
  revert acc; induction l as [|x t IH]; intros acc H; simpl; [exact H|].
  apply IH, insert_by_sorted, H.
Qed.

Lemma sort_by_sorted l : Sorted le (sort_by cmp l).
Proof. apply sort_by_sorted_acc; constructor. Qed.
End SortBy.

Definition ts_le (a b : Message) : Prop := timestamp a <= timestamp b.

Lemma sort_compare_ascending a b :
  sort_compare [("timestamp", 1)] a b = Z.compare (timestamp a) (timestamp b).
Proof. cbn; unfold field_compare; cbn; destruct (Z.compare (timestamp a) (timestamp b)); reflexivity. Qed.

Lemma ascending_lt a b : sort_compare [("timestamp", 1)] a b = Lt -> ts_le a b.
Proof.
  rewrite sort_compare_ascending; unfold ts_le; intro H.
  destruct (Z.compare_spec (timestamp a) (timestamp b)); [lia | lia | discriminate].
Qed.

Lemma ascending_not_lt a b : sort_compare [("timestamp", 1)] a b <> Lt -> ts_le b a.
Proof.
  rewrite sort_compare_ascending; unfold ts_le; intro H.
  destruct (Z.compare_spec (timestamp a) (timestamp b)); [lia | contradiction | lia].
Qed.

(** C8: [GET /api/rooms/:roomId/messages] (absent a store fault) answers
    200 with every Message of the room, none dropped and no cap, ordered by
    ascending timestamp. *)
Theorem get_room_messages_all_ascending r w :
  next_ok w = true ->
  exists ms, fst (get_room_messages r w) = inr (200, MessagesJson ms) /\
    Permutation ms (filter (message_matches r) (messages w)) /\
    Sorted ts_le ms.
Proof.
  intro Hn.
  exists (sort_by (sort_compare [("timestamp", 1)]) (filter (message_matches r) (messages w))).
  split; [| split].
  - unfold next_ok in Hn; unfold get_room_messages, catch, bind, Message_exec, store_call, gets, ret.
    destruct (faults w) as [|[|] fs]; try discriminate; reflexivity.
  - apply sort_by_perm.
  - apply (sort_by_sorted _ ts_le ascending_lt ascending_not_lt).
Qed.

Lemma join_room_tail_faults r u (room : Room) :
  respects faults_suffix
    (socket_join r;;
     set_session r u;;
     msgs <- Message_exec (recent_messages_query r);;
     s <- get_sock;;
     emit (ToSocket (socket_id s)) (RoomJoined r (participants room) msgs);;
     emit (ToRoomExcept r (socket_id s)) (UserJoined u (participants room))).
Proof. frame. Qed.

Lemma join_room_handler_faults :
  forall e, respects faults_suffix
    ((fun _ : Exc => s <- get_sock;; emit (ToSocket (socket_id s)) (ErrorEvent "Failed to join room")) e).
Proof. intro e; cbv beta; frame. Qed.

Lemma no_faults_suffix w w' : faults_suffix w w' -> no_faults w = true -> no_faults w' = true.
Proof.
  intros [pre H]; unfold no_faults; rewrite H, forallb_app; intro E.
  apply andb_true_iff in E; apply E.
Qed.

(** After the Room is stored, the rest of [join-room] keeps the Room
    collection and the absence of faults. *)
Lemma join_room_after_save r u d w :
  rooms (snd (catch (room <- ret d;;
     socket_join r;;
     set_session r u;;
     msgs <- Message_exec (recent_messages_query r);;
     s <- get_sock;;
     emit (ToSocket (socket_id s)) (RoomJoined r (participants room) msgs);;
     emit (ToRoomExcept r (socket_id s)) (UserJoined u (participants room)))
   (fun _ : Exc => s <- get_sock;; emit (ToSocket (socket_id s)) (ErrorEvent "Failed to join room")) w))
  = rooms w /\
  (no_faults w = true -> no_faults (snd (catch (room <- ret d;;
     socket_join r;;
     set_session r u;;
     msgs <- Message_exec (recent_messages_query r);;
     s <- get_sock;;
     emit (ToSocket (socket_id s)) (RoomJoined r (participants room) msgs);;
     emit (ToRoomExcept r (socket_id s)) (UserJoined u (participants room)))
   (fun _ : Exc => s <- get_sock;; emit (ToSocket (socket_id s)) (ErrorEvent "Failed to join room")) w)) = true).
Proof.
  rewrite (catch_bind_inr _ _ _ _ _ _ (eq_refl : ret d w = (inr d, w))).
  split.
  - exact (respects_catch same_rooms same_rooms_trans _ _ (join_room_tail_rooms r u d)
             join_room_handler_rooms w).
  - apply no_faults_suffix.
    exact (respects_catch faults_suffix faults_suffix_trans _ _ (join_room_tail_faults r u d)
             join_room_handler_faults w).
Qed.

Lemma catch_bind_bind_inr {A B C} (m : M A) (k1 : A -> M B) (k2 : B -> M C) h w a w' :
  m w = (inr a, w') -> catch (bind (bind m k1) k2) h w = catch (bind (k1 a) k2) h w'.
Proof. intro E; unfold catch, bind; rewrite E; reflexivity. Qed.

Lemma find_app_none f (l1 l2 : list Room) :
  find f l1 = None -> find f (l1 ++ l2) = find f l2.
Proof.
  induction l1 as [|x t IH]; simpl; [reflexivity|].
  destruct (f x); [discriminate | exact IH].
Qed.

Lemma join_room_new r u w :
  r <> "" -> find (room_matches r) (rooms w) = None -> no_faults w = true ->
  find (room_matches r) (rooms (run (join_room r u) w)) = Some (mkRoom r [u] (clock w)) /\
  no_faults (run (join_room r u) w) = true.
Proof.
  intros Hr Hf Hnf; unfold run, join_room, join_room_body.
  destruct (findOne_ok r w Hnf) as [fs [Hfs E]].
  rewrite (catch_bind_inr _ _ _ _ _ _ E).
  rewrite (catch_bind_inr _ _ _ _ _ _ (eq_refl : gets clock (set_faults fs w) = (inr (clock w), set_faults fs w))).
  rewrite Hf; cbv beta iota.
  assert (Hreq : required r = true) by exact (truthy_some r Hr).
  set (d := mkRoom r [u] (clock w)).
  assert (E2 : Room_save true d (set_faults fs w)
               = (inr tt, set_rooms (rooms w ++ [d]) (set_faults (tl fs) (set_faults fs w)))).
  { unfold Room_save; change (roomId d) with r; rewrite Hreq; cbn [negb].
    unfold store_call; cbn [faults set_faults].
    destruct fs as [|[|] fs2]; try discriminate; cbn; rewrite Hf; reflexivity. }
  rewrite (catch_bind_bind_inr _ _ _ _ _ _ _ E2); cbv beta.
  destruct (join_room_after_save r u d (set_rooms (rooms w ++ [d]) (set_faults (tl fs) (set_faults fs w))))
    as [H1 H2].
  split.
  - rewrite H1; cbn; rewrite (find_app_none _ _ _ Hf); cbn; rewrite String.eqb_refl; reflexivity.
  - apply H2; unfold no_faults; cbn; destruct fs; [reflexivity | apply andb_true_iff in Hfs; apply Hfs].
Qed.

Lemma join_room_append r u d w :
  r <> "" -> find (room_matches r) (rooms w) = Some d -> ~ In u (participants d) ->
  no_faults w = true ->
  find (room_matches r) (rooms (run (join_room r u) w))
    = Some (mkRoom (roomId d) (participants d ++ [u]) (createdAt d)) /\
  no_faults (run (join_room r u) w) = true.
Proof.
  intros Hr Hf Hu Hnf; unfold run, join_room, join_room_body.
  destruct (findOne_ok r w Hnf) as [fs [Hfs E]].
  rewrite (catch_bind_inr _ _ _ _ _ _ E).
  rewrite (catch_bind_inr _ _ _ _ _ _ (eq_refl : gets clock (set_faults fs w) = (inr (clock w), set_faults fs w))).
  rewrite Hf; cbv beta iota.
  assert (Hx : existsb (String.eqb u) (participants d) = false).
  { destruct (existsb (String.eqb u) (participants d)) eqn:X; [|reflexivity].
    apply existsb_exists in X as [x [Hx Hxe]]; apply String.eqb_eq in Hxe; subst; contradiction. }
  rewrite Hx.
  assert (Hrd : roomId d = r) by exact (room_matches_true r d (proj2 (find_some _ _ Hf))).
  assert (Hreq : required r = true) by exact (truthy_some r Hr).
  set (d' := mkRoom (roomId d) (participants d ++ [u]) (createdAt d)).
  assert (E2 : Room_save false d' (set_faults fs w)
               = (inr tt, set_rooms (replace_first r d' (rooms w)) (set_faults (tl fs) (set_faults fs w)))).
  { unfold Room_save; change (roomId d') with (roomId d); rewrite Hrd, Hreq; cbn [negb].
    unfold store_call; cbn [faults set_faults].
    destruct fs as [|[|] fs2]; try discriminate; cbn; rewrite Hf; reflexivity. }
  rewrite (catch_bind_bind_inr _ _ _ _ _ _ _ E2); cbv beta.
  destruct (join_room_after_save r u d' (set_rooms (replace_first r d' (rooms w)) (set_faults (tl fs) (set_faults fs w))))
    as [H1 H2].
  split.
  - rewrite H1; cbn; apply find_replace_first;
      [unfold room_matches; cbn; rewrite Hrd; apply String.eqb_refl | rewrite Hf; discriminate].
  - apply H2; unfold no_faults; cbn; destruct fs; [reflexivity | apply andb_true_iff in Hfs; apply Hfs].
Qed.

Lemma join_all_existing r us :
  forall w d, r <> "" -> find (room_matches r) (rooms w) = Some d ->
  NoDup (participants d ++ map snd us) -> no_faults w = true ->
  exists d', find (room_matches r) (rooms (join_all r us w)) = Some d'
             /\ participants d' = participants d ++ map snd us.
Proof.
  induction us as [|[s u] t IH]; intros w d Hr Hf Hnd Hnf; simpl.
  - exists d; rewrite app_nil_r; split; [exact Hf | reflexivity].
  - assert (Hu : ~ In u (participants d)).
    { intro Hin; apply (NoDup_remove_2 _ _ _ Hnd); apply in_or_app; left; exact Hin. }
    destruct (join_room_append r u d (set_sock s w) Hr Hf Hu Hnf) as [H1 H2].
    destruct (IH _ _ Hr H1) as [d' [Hd' Hp]]; [simpl; rewrite <- app_assoc; exact Hnd | exact H2 |].
    exists d'; split; [exact Hd'|]; rewrite Hp; simpl; rewrite <- app_assoc; reflexivity.
Qed.

(** C2: on a room id with no Room record, the first successful
    [join-room] creates the Room with participant list [[u]], and a
    sequence of successful joins (no store fault, non-empty room id) with
    pairwise-distinct usernames, from any connections, leaves the Room
    with exactly those usernames, each once, in first-join order. *)
Theorem join_sequence_participants r us w :
  r <> "" -> find (room_matches r) (rooms w) = None ->
  NoDup (map snd us) -> no_faults w = true ->
  (forall s u t, us = (s, u) :: t ->
     find (room_matches r) (rooms (run (join_room r u) (set_sock s w)))
     = Some (mkRoom r [u] (clock w))) /\
  (us <> [] -> exists d, find (room_matches r) (rooms (join_all r us w)) = Some d
                         /\ participants d = map snd us).
Proof.
  intros Hr Hf Hnd Hnf; split.
  - intros s u t E; subst; exact (proj1 (join_room_new r u (set_sock s w) Hr Hf Hnf)).
  - intro Hne; destruct us as [|[s u] t]; [contradiction|]; simpl.
    destruct (join_room_new r u (set_sock s w) Hr Hf Hnf) as [H1 H2].
    destruct (join_all_existing r t _ _ Hr H1) as [d [Hd Hp]]; [exact Hnd | exact H2 |].
    exists d; split; [exact Hd | rewrite Hp; reflexivity].
Qed.

(** C1: the query of [join-room] merges both [.sort] calls into one sort
    key [timestamp: 1], so with 51 messages in a room the [room-joined]
    reply carries the 50 oldest messages (timestamps 1..50), not the 50
    most recent (the most recent one, timestamp 51, is missing). *)
Theorem join_room_reply_oldest_fifty :
  recent_messages_query "r1" = mkQuery "r1" [("timestamp", 1)] (Some 50%nat) /\
  exists ms,
    In (mkEvent (ToSocket 0) (RoomJoined "r1" ["alice"] ms))
       (log (run (join_room "r1" "alice") world51)) /\
    map timestamp ms = map Z.of_nat (seq 1 50) /\
    ~ In 51 (map timestamp ms).
Proof.
  split; [reflexivity|].
  exists (firstn 50 (messages world51)).
  split; [vm_compute; left; reflexivity|].
  split; [vm_compute; reflexivity|].
  vm_compute; intuition discriminate.
Qed.

(** C3, counterexample: a connection that joined [r1] with the empty
    username is its room's only participant, yet its [disconnect] keeps
    the Room ([socket.username] is falsy), and [get-room] answers 200. *)
Lemma disconnect_empty_username_keeps_room :
  find (room_matches "r1") (rooms world_empty_name) = Some (mkRoom "r1" [""] 1000) /\
  sock world_empty_name = mkSocket 0 (Some "r1") (Some "") /\
  fst (get_room "r1" (run disconnect world_empty_name))
  = inr (200, RoomJson (mkRoom "r1" [""] 1000)).
Proof. split; [reflexivity | split; reflexivity]. Qed.

(** C4, counterexample: the empty username is not removed on its
    connection's [disconnect] from a room it shares with Bob, and no
    [user-left] is emitted. *)
Lemma disconnect_empty_username_not_removed :
  find (room_matches "r1") (rooms world_empty_bob) = Some (mkRoom "r1" [""; "bob"] 1000) /\
  find (room_matches "r1") (rooms (run disconnect world_empty_bob))
  = Some (mkRoom "r1" [""; "bob"] 1000) /\
  log (run disconnect world_empty_bob) = log world_empty_bob.
Proof. split; [reflexivity | split; reflexivity]. Qed.

(** ** Witnesses *)

Lemma join_sequence_participants_witness :
  find (room_matches "r1")
    (rooms (join_all "r1" [(mkSocket 0 None None, "alice"); (mkSocket 1 None None, "bob")] world0))
    <> None /\
  exists d, find (room_matches "r1")
    (rooms (join_all "r1" [(mkSocket 0 None None, "alice"); (mkSocket 1 None None, "bob")] world0))
    = Some d /\ participants d = ["alice"; "bob"].
Proof.
  split; [vm_compute; discriminate|].
  apply (proj2 (join_sequence_participants "r1"
           [(mkSocket 0 None None, "alice"); (mkSocket 1 None None, "bob")] world0
           ltac:(discriminate) eq_refl
           ltac:(repeat constructor; simpl; intuition discriminate) eq_refl)).
  discriminate.
Defined.

Lemma disconnect_last_participant_deletes_witness :
  find (room_matches "r1") (rooms world_alice) = Some (mkRoom "r1" ["alice"] 1000) /\
  find (room_matches "r1") (rooms (run disconnect world_alice)) = None /\
  find (room_matches "r1") (rooms world_empty_name) = Some (mkRoom "r1" [""] 1000) /\
  rooms (run disconnect world_empty_name) = rooms world_empty_name.
Proof.
  split; [reflexivity|]; split.
  - apply (proj1 (proj1 disconnect_last_participant_deletes "r1" "alice" (mkRoom "r1" ["alice"] 1000)
             world_alice ltac:(discriminate) ltac:(discriminate) eq_refl eq_refl eq_refl eq_refl
             ltac:(vm_compute; repeat constructor; simpl; tauto) eq_refl)).
  - split; [reflexivity|].
    apply (proj1 (proj2 disconnect_last_participant_deletes "r1" (mkRoom "r1" [""] 1000)
             world_empty_name eq_refl eq_refl eq_refl)).
Defined.

Lemma disconnect_other_participant_removed_witness :
  let w := set_sock (mkSocket 1 (Some "r1") (Some "bob")) world_alice_bob in
  find (room_matches "r1") (rooms w) = Some (mkRoom "r1" ["alice"; "bob"] 1000) /\
  find (room_matches "r1") (rooms (run disconnect w)) = Some (mkRoom "r1" ["alice"] 1000) /\
  socket_username (sock world_empty_bob) = Some "" /\
  log (run disconnect world_empty_bob) = log world_empty_bob.
Proof.
  split; [reflexivity|]; split.
  - apply (proj1 (proj1 disconnect_other_participant_removed "r1" "bob" "alice"
             (mkRoom "r1" ["alice"; "bob"] 1000)
             (set_sock (mkSocket 1 (Some "r1") (Some "bob")) world_alice_bob)
             ltac:(discriminate) ltac:(discriminate) eq_refl eq_refl eq_refl
             ltac:(simpl; tauto) ltac:(simpl; tauto) ltac:(discriminate) eq_refl)).
  - split; [reflexivity|].
    exact (proj1 (proj2 (proj2 (proj2 disconnect_other_participant_removed world_empty_bob eq_refl)))).
Defined.

Lemma clear_room_chat_deletes_exactly_witness :
  fst (clear_room_chat_body "r1" world51) = inr tt /\
  messages (run (clear_room_chat "r1") world51) = [].
Proof.
  split; [reflexivity|].
  exact (proj1 (clear_room_chat_deletes_exactly "r1" world51 eq_refl)).
Defined.

Lemma send_message_outcomes_witness :
  fst (send_message_body "r1" "alice" "hi" world_alice) = inr tt /\
  messages (run (send_message "r1" "alice" "hi") world_alice)
  = [mkMessage 1 "r1" "alice" "hi" 1000] /\
  fst (send_message_body "r1" "alice" "hi" (set_faults [true] world_alice)) = inl StoreFault /\
  messages (run (send_message "r1" "alice" "hi") (set_faults [true] world_alice)) = [].
Proof.
  split; [reflexivity|]; split.
  - exact (proj1 (proj1 (send_message_outcomes "r1" "alice" "hi" world_alice) eq_refl)).
  - split; [reflexivity|].
    exact (proj1 (proj2 (send_message_outcomes "r1" "alice" "hi" (set_faults [true] world_alice))
                    StoreFault eq_refl)).
Defined.

Lemma join_room_present_idempotent_witness :
  find (room_matches "r1") (rooms world_alice) = Some (mkRoom "r1" ["alice"] 1000) /\
  rooms (run (join_room "r1" "alice") world_alice) = rooms world_alice.
Proof.
  split; [reflexivity|].
  apply (join_room_present_idempotent "r1" "alice" world_alice (mkRoom "r1" ["alice"] 1000));
    [reflexivity | simpl; tauto].
Defined.

Lemma get_room_messages_all_ascending_witness :
  next_ok world51 = true /\
  exists ms, fst (get_room_messages "r1" world51) = inr (200, MessagesJson ms) /\
    Permutation ms (filter (message_matches "r1") (messages world51)) /\ Sorted ts_le ms.
Proof.
  split; [reflexivity|].
  exact (get_room_messages_all_ascending "r1" world51 eq_refl).
Defined.

Lemma disconnect_frame_unjoined_or_roomless_witness :
  socket_roomId (sock world0) = None /\
  rooms (run disconnect world0) = rooms world0 /\
  (let w := set_sock (mkSocket 0 (Some "r2") (Some "alice")) world_alice in
   find (room_matches "r2") (rooms w) = None /\ log (run disconnect w) = log w).
Proof.
  split; [reflexivity|]; split.
  - exact (proj1 (proj1 (disconnect_frame_unjoined_or_roomless world0) eq_refl eq_refl)).
  - split; [reflexivity|].
    exact (proj2 (proj2 (proj2 (disconnect_frame_unjoined_or_roomless
             (set_sock (mkSocket 0 (Some "r2") (Some "alice")) world_alice))
             "r2" "alice" eq_refl eq_refl eq_refl))).
Defined.

(** * Further properties of the server *)

Ltac handler_frame :=
  unfold join_room, join_room_body, disconnect, disconnect_body, send_message,
    send_message_body, clear_room_chat, clear_room_chat_body, typing; frame.

Lemma handlers_keep (P : list Room -> Prop) :
  (forall b d, respects (keeps P) (Room_save b d)) ->
  (forall r, respects (keeps P) (Room_deleteOne r)) ->
  forall r u sdr t b,
  respects (keeps P) (join_room r u) /\ respects (keeps P) disconnect /\
  respects (keeps P) (send_message r sdr t) /\ respects (keeps P) (clear_room_chat r) /\
  respects (keeps P) (typing r u b).
Proof.
  intros Hs Hd r u sdr t b.
  repeat split; handler_frame; try apply Hs; try apply Hd.
Qed.

(** Every Socket.IO handler, whatever store faults occur, keeps the room
    ids of the Room collection pairwise distinct. *)
Theorem handlers_keep_unique_ids w r u sdr t b :
  unique_ids (rooms w) ->
  unique_ids (rooms (run (join_room r u) w)) /\ unique_ids (rooms (run disconnect w)) /\
  unique_ids (rooms (run (send_message r sdr t) w)) /\
  unique_ids (rooms (run (clear_room_chat r) w)) /\
  unique_ids (rooms (run (typing r u b) w)).
Proof.
  intro H.
  destruct (handlers_keep unique_ids Room_save_unique_ids Room_deleteOne_unique_ids r u sdr t b)
    as [H1 [H2 [H3 [H4 H5]]]].
  repeat split; [apply (H1 w) | apply (H2 w) | apply (H3 w) | apply (H4 w) | apply (H5 w)]; exact H.
Qed.

(** Every Socket.IO handler, whatever store faults occur, stores only
    rooms whose id is a non-empty string (the [required] validator). *)
Theorem handlers_keep_nonempty_ids w r u sdr t b :
  nonempty_ids (rooms w) ->
  nonempty_ids (rooms (run (join_room r u) w)) /\ nonempty_ids (rooms (run disconnect w)) /\
  nonempty_ids (rooms (run (send_message r sdr t) w)) /\
  nonempty_ids (rooms (run (clear_room_chat r) w)) /\
  nonempty_ids (rooms (run (typing r u b) w)).
Proof.
  intro H.
  destruct (handlers_keep nonempty_ids Room_save_nonempty_ids Room_deleteOne_nonempty_ids r u sdr t b)
    as [H1 [H2 [H3 [H4 H5]]]].
  repeat split; [apply (H1 w) | apply (H2 w) | apply (H3 w) | apply (H4 w) | apply (H5 w)]; exact H.
Qed.

Lemma catch_bind_bind_inl {A B C} (m : M A) (k1 : A -> M B) (k2 : B -> M C) h w e w' :
  m w = (inl e, w') -> catch (bind (bind m k1) k2) h w = h e w'.
Proof. intro E; unfold catch, bind; rewrite E; reflexivity. Qed.

Lemma Room_save_result b d w :
  (exists e w', Room_save b d w = (inl e, w') /\ rooms w' = rooms w) \/
  (exists w', Room_save b d w = (inr tt, w') /\
     rooms w' = (if b then rooms w ++ [d] else replace_first (roomId d) d (rooms w))).
Proof.
  unfold Room_save; destruct (negb (required (roomId d))).
  - left; do 2 eexists; split; reflexivity.
  - unfold store_call; destruct (faults w) as [|[|] fs].
    + destruct (find (room_matches (roomId d)) (rooms w)), b;
        [left | right | right | left]; do 2 eexists; split; reflexivity.
    + left; do 2 eexists; split; reflexivity.
    + cbn [rooms set_faults];
      destruct (find (room_matches (roomId d)) (rooms w)), b;
        [left | right | right | left]; do 2 eexists; split; reflexivity.
Qed.

Lemma Room_deleteOne_result r w :
  (exists e w', Room_deleteOne r w = (inl e, w') /\ rooms w' = rooms w) \/
  (exists w', Room_deleteOne r w = (inr tt, w') /\ rooms w' = remove_first r (rooms w)).
Proof.
  unfold Room_deleteOne, store_call, modify; destruct (faults w) as [|[|] fs];
    [right | left | right]; do 2 eexists; split; reflexivity.
Qed.

(** How [join-room] can change the Room collection: not at all, by
    inserting [{r, [u]}] for a missing room, or by appending [u] to the
    participants of the stored room that lacks it. *)
Lemma join_room_rooms_cases r u w :
  rooms (run (join_room r u) w) = rooms w \/
  (find (room_matches r) (rooms w) = None /\
   rooms (run (join_room r u) w) = rooms w ++ [mkRoom r [u] (clock w)]) \/
  (exists d, find (room_matches r) (rooms w) = Some d /\ ~ In u (participants d) /\
   rooms (run (join_room r u) w)
   = replace_first (roomId d) (mkRoom (roomId d) (participants d ++ [u]) (createdAt d)) (rooms w)).
Proof.
  unfold run, join_room, join_room_body.
  destruct (findOne_result r w) as [fs [E|E]].
  - left; rewrite (catch_bind_inl _ _ _ _ _ _ E).
    exact (join_room_handler_rooms StoreFault (set_faults fs w)).
  - rewrite (catch_bind_inr _ _ _ _ _ _ E).
    rewrite (catch_bind_inr _ _ _ _ _ _ (eq_refl : gets clock (set_faults fs w) = (inr (clock w), set_faults fs w))).
    destruct (find (room_matches r) (rooms w)) as [d|] eqn:Hf; cbv beta iota.
    + destruct (existsb (String.eqb u) (participants d)) eqn:X.
      * left; exact (proj1 (join_room_after_save r u d (set_faults fs w))).
      * destruct (Room_save_result false (mkRoom (roomId d) (participants d ++ [u]) (createdAt d))
                    (set_faults fs w)) as [[e [w2 [E2 R2]]] | [w2 [E2 R2]]].
        -- left; rewrite (catch_bind_bind_inl _ _ _ _ _ _ _ E2).
           exact (eq_trans (join_room_handler_rooms e w2) R2).
        -- right; right; exists d; split; [first [exact Hf | reflexivity]|]; split.
           ++ intro Hin; assert (Hx : existsb (String.eqb u) (participants d) = true)
                by (apply existsb_exists; exists u; split; [exact Hin | apply String.eqb_refl]).
              congruence.
           ++ rewrite (catch_bind_bind_inr _ _ _ _ _ _ _ E2); cbv beta.
              rewrite (proj1 (join_room_after_save r u _ w2)), R2; reflexivity.
    + destruct (Room_save_result true (mkRoom r [u] (clock w)) (set_faults fs w))
        as [[e [w2 [E2 R2]]] | [w2 [E2 R2]]].
      * left; rewrite (catch_bind_bind_inl _ _ _ _ _ _ _ E2).
        exact (eq_trans (join_room_handler_rooms e w2) R2).
      * right; left; split; [first [exact Hf | reflexivity]|].
        rewrite (catch_bind_bind_inr _ _ _ _ _ _ _ E2); cbv beta.
        rewrite (proj1 (join_room_after_save r u _ w2)), R2; reflexivity.
Qed.

Lemma truthy_some_inv s : truthy (Some s) = true -> s <> "".
Proof. unfold truthy; apply required_neq. Qed.

(** How [disconnect] can change the Room collection: not at all, by
    deleting the room the connection's username was the last participant
    of, or by storing that room without the username. *)
Lemma disconnect_rooms_cases w :
  rooms (run disconnect w) = rooms w \/
  exists r u d, socket_roomId (sock w) = Some r /\ socket_username (sock w) = Some u /\
    r <> "" /\ u <> "" /\ find (room_matches r) (rooms w) = Some d /\
    ((filter (fun p => negb (String.eqb p u)) (participants d) = [] /\
      rooms (run disconnect w) = remove_first r (rooms w)) \/
     (filter (fun p => negb (String.eqb p u)) (participants d) <> [] /\
      rooms (run disconnect w)
      = replace_first (roomId d)
          (mkRoom (roomId d) (filter (fun p => negb (String.eqb p u)) (participants d)) (createdAt d))
          (rooms w))).
Proof.
  unfold run; rewrite disconnect_unfold.
  destruct (socket_roomId (sock w)) as [r|] eqn:Hr; [|left; reflexivity].
  destruct (socket_username (sock w)) as [u|] eqn:Hu; [|left; reflexivity].
  destruct (truthy (Some r)) eqn:Tr; [|left; reflexivity].
  destruct (truthy (Some u)) eqn:Tu; [|left; reflexivity].
  cbn [andb]; unfold disconnect_body.
  destruct (findOne_result r (snd (socket_leave_all w))) as [fs [E|E]].
  - left; rewrite (catch_bind_inl _ _ _ _ _ _ E); reflexivity.
  - rewrite (catch_bind_inr _ _ _ _ _ _ E).
    cbn [rooms snd socket_leave_all modify set_adapter].
    destruct (find (room_matches r) (rooms w)) as [d|] eqn:Hf; [|left; reflexivity].
    cbv beta iota.
    set (ps := filter (fun p => negb (String.eqb p u)) (participants d)).
    match goal with |- context [catch _ _ ?w2] => set (w2' := w2) end.
    destruct (Nat.eqb (List.length ps) 0) eqn:L.
    + destruct (Room_deleteOne_result r w2') as [[e [w3 [E3 R3]]] | [w3 [E3 R3]]].
      * left; unfold catch; rewrite E3; exact R3.
      * right; exists r, u, d; repeat split; auto using truthy_some_inv.
        left; split; [apply length_zero_iff_nil, Nat.eqb_eq, L|].
        unfold catch; rewrite E3; exact R3.
    + destruct (Room_save_result false (mkRoom (roomId d) ps (createdAt d)) w2')
        as [[e [w3 [E3 R3]]] | [w3 [E3 R3]]].
      * left; rewrite (catch_bind_inl _ _ _ _ _ _ E3); exact R3.
      * right; exists r, u, d; repeat split; auto using truthy_some_inv.
        right; split.
        -- intro P; fold ps in P; rewrite P in L; discriminate.
        -- rewrite (catch_bind_inr _ _ _ _ _ _ E3); unfold catch, emit, modify; cbn.
           exact R3.
Qed.

(** Room invariant: [join-room] creates rooms with [[username]] and
    appends only absent usernames, [disconnect] deletes a room instead of
    storing it with no participant, and the other handlers leave the Room
    collection alone; so every stored room keeps a non-empty,
    duplicate-free participant list, whatever store faults occur. *)
Theorem handlers_keep_good_participants w r u sdr t b :
  good_participants (rooms w) ->
  good_participants (rooms (run (join_room r u) w)) /\
  good_participants (rooms (run disconnect w)) /\
  good_participants (rooms (run (send_message r sdr t) w)) /\
  good_participants (rooms (run (clear_room_chat r) w)) /\
  good_participants (rooms (run (typing r u b) w)).
Proof.
  intro H; split; [|split; [|split; [|split]]].
  - destruct (join_room_rooms_cases r u w) as [E | [[Hf E] | [d [Hf [Hu E]]]]]; rewrite E.
    + exact H.
    + apply Forall_app; split; [exact H|].
      constructor; [split; [discriminate | repeat constructor; simpl; tauto] | constructor].
    + apply Forall_replace_first; [|exact H]; simpl.
      pose proof (proj1 (Forall_forall _ _) H d (proj1 (find_some _ _ Hf))) as [_ Hnd].
      split; [destruct (participants d); discriminate|].
      apply (Permutation_NoDup (Permutation_cons_append _ _)); constructor; assumption.
  - destruct (disconnect_rooms_cases w) as [E | [r' [u' [d [_ [_ [_ [_ [Hf [[_ E] | [Hne E]]]]]]]]]]];
      rewrite E.
    + exact H.
    + apply Forall_remove_first, H.
    + apply Forall_replace_first; [|exact H]; simpl.
      pose proof (proj1 (Forall_forall _ _) H d (proj1 (find_some _ _ Hf))) as [_ Hnd].
      split; [exact Hne | apply NoDup_filter, Hnd].
  - assert (R : respects same_rooms (send_message r sdr t)) by handler_frame.
    unfold run; rewrite (R w); exact H.
  - assert (R : respects same_rooms (clear_room_chat r)) by handler_frame.
    unfold run; rewrite (R w); exact H.
  - assert (R : respects same_rooms (typing r u b)) by handler_frame.
    unfold run; rewrite (R w); exact H.
Qed.

(** The part of [join-room] after the Room is stored, with no store fault. *)
Lemma join_room_tail_result r u (d : Room) w :
  no_faults w = true ->
  exists w'',
    catch (room <- ret d;;
       socket_join r;;
       set_session r u;;
       msgs <- Message_exec (recent_messages_query r);;
       s <- get_sock;;
       emit (ToSocket (socket_id s)) (RoomJoined r (participants room) msgs);;
       emit (ToRoomExcept r (socket_id s)) (UserJoined u (participants room)))
     (fun _ : Exc => s <- get_sock;; emit (ToSocket (socket_id s)) (ErrorEvent "Failed to join room")) w
    = (inr tt, w'') /\
    rooms w'' = rooms w /\ messages w'' = messages w /\
    sock w'' = mkSocket (socket_id (sock w)) (Some r) (Some u) /\
    In (r, socket_id (sock w)) (adapter w'') /\
    log w'' = log w ++
      [mkEvent (ToSocket (socket_id (sock w)))
         (RoomJoined r (participants d) (exec_query (messages w) (recent_messages_query r)));
       mkEvent (ToRoomExcept r (socket_id (sock w))) (UserJoined u (participants d))].
Proof.
  intro Hnf.
  destruct (existsb (fun p => String.eqb (fst p) r && Nat.eqb (snd p) (socket_id (sock w)))
              (adapter w)) eqn:A.
  - assert (Hin : In (r, socket_id (sock w)) (adapter w)).
    { apply existsb_exists in A as [[x n] [Hx Ex]]; simpl in Ex.
      apply andb_true_iff in Ex as [E1 E2]; apply String.eqb_eq in E1; apply Nat.eqb_eq in E2.
      subst; exact Hx. }
    unfold no_faults in Hnf.
    unfold catch, bind, ret, socket_join, set_session, modify, Message_exec, get_sock, gets,
      emit, store_call; simpl; rewrite A.
    destruct (faults w) as [|[|] fs]; simpl in Hnf; try discriminate;
      eexists; (split; [reflexivity|]); simpl; repeat split; first [assumption | rewrite <- app_assoc; reflexivity].
  - unfold no_faults in Hnf.
    unfold catch, bind, ret, socket_join, set_session, modify, Message_exec, get_sock, gets,
      emit, store_call; simpl; rewrite A; cbn [faults set_adapter set_sock].
    destruct (faults w) as [|[|] fs]; simpl in Hnf; try discriminate;
      eexists; (split; [reflexivity|]); simpl; repeat split;
      first [apply in_or_app; right; left; reflexivity | rewrite <- app_assoc; reflexivity].
Qed.

Lemma join_room_success_gen r u w :
  r <> "" -> no_faults w = true ->
  let w' := run (join_room r u) w in
  exists d, find (room_matches r) (rooms w') = Some d /\ In u (participants d) /\
    sock w' = mkSocket (socket_id (sock w)) (Some r) (Some u) /\
    In (r, socket_id (sock w)) (adapter w') /\
    messages w' = messages w /\
    log w' = log w ++
      [mkEvent (ToSocket (socket_id (sock w)))
         (RoomJoined r (participants d) (exec_query (messages w) (recent_messages_query r)));
       mkEvent (ToRoomExcept r (socket_id (sock w))) (UserJoined u (participants d))].
Proof.
  intros Hr Hnf w'; unfold w', run, join_room, join_room_body.
  destruct (findOne_ok r w Hnf) as [fs [Hfs E]].
  rewrite (catch_bind_inr _ _ _ _ _ _ E).
  rewrite (catch_bind_inr _ _ _ _ _ _ (eq_refl : gets clock (set_faults fs w) = (inr (clock w), set_faults fs w))).
  assert (Hreq : required r = true) by exact (truthy_some r Hr).
  assert (Htl : no_faults (set_faults (tl fs) (set_faults fs w)) = true)
    by (unfold no_faults; cbn; destruct fs; [reflexivity | apply andb_true_iff in Hfs; apply Hfs]).
  destruct (find (room_matches r) (rooms w)) as [d0|] eqn:Hf; cbv beta iota.
  - destruct (existsb (String.eqb u) (participants d0)) eqn:X.
    + destruct (join_room_tail_result r u d0 (set_faults fs w) Hfs)
        as [w2 [E2 [R2 [M2 [S2 [A2 L2]]]]]].
      rewrite E2; exists d0; simpl; rewrite R2.
      split; [exact Hf|]; split.
      * apply existsb_exists in X as [x [Hx Ex]]; apply String.eqb_eq in Ex; subst; exact Hx.
      * repeat split; assumption.
    + assert (Hrd : roomId d0 = r) by exact (room_matches_true r d0 (proj2 (find_some _ _ Hf))).
      set (d' := mkRoom (roomId d0) (participants d0 ++ [u]) (createdAt d0)).
      assert (E2 : Room_save false d' (set_faults fs w)
                   = (inr tt, set_rooms (replace_first r d' (rooms w)) (set_faults (tl fs) (set_faults fs w)))).
      { unfold Room_save; change (roomId d') with (roomId d0); rewrite Hrd, Hreq; cbn [negb].
        unfold store_call; cbn [faults set_faults].
        destruct fs as [|[|] fs2]; try discriminate; cbn; rewrite Hf; reflexivity. }
      rewrite (catch_bind_bind_inr _ _ _ _ _ _ _ E2); cbv beta.
      destruct (join_room_tail_result r u d' (set_rooms (replace_first r d' (rooms w)) (set_faults (tl fs) (set_faults fs w))) Htl) as [w2 [E3 [R3 [M3 [S3 [A3 L3]]]]]].
      rewrite E3; exists d'; simpl; rewrite R3; cbn.
      split; [apply find_replace_first;
              [unfold room_matches; cbn; rewrite Hrd; apply String.eqb_refl | rewrite Hf; discriminate]|].
      split; [apply in_or_app; right; left; reflexivity|].
      repeat split; assumption.
  - set (d := mkRoom r [u] (clock w)).
    assert (E2 : Room_save true d (set_faults fs w)
                 = (inr tt, set_rooms (rooms w ++ [d]) (set_faults (tl fs) (set_faults fs w)))).
    { unfold Room_save; change (roomId d) with r; rewrite Hreq; cbn [negb].
      unfold store_call; cbn [faults set_faults].
      destruct fs as [|[|] fs2]; try discriminate; cbn; rewrite Hf; reflexivity. }
    rewrite (catch_bind_bind_inr _ _ _ _ _ _ _ E2); cbv beta.
    destruct (join_room_tail_result r u d (set_rooms (rooms w ++ [d]) (set_faults (tl fs) (set_faults fs w))) Htl) as [w2 [E3 [R3 [M3 [S3 [A3 L3]]]]]].
    rewrite E3; exists d; simpl; rewrite R3; cbn.
    split; [rewrite (find_app_none _ _ _ Hf); cbn; rewrite String.eqb_refl; reflexivity|].
    split; [left; reflexivity|].
    repeat split; assumption.
Qed.

(** A successful [join-room] (non-empty room id, no store fault) binds the
    connection's session to the room and username, subscribes it to the
    Socket.IO room, leaves a stored Room that lists [u], replies
    [room-joined] with that Room's participants and the result of the
    recent-messages query, then sends [user-joined] to the room's other
    members; the Message collection is untouched. *)
Theorem join_room_success r u w :
  r <> "" -> no_faults w = true ->
  let w' := run (join_room r u) w in
  exists d, find (room_matches r) (rooms w') = Some d /\ In u (participants d) /\
    sock w' = mkSocket (socket_id (sock w)) (Some r) (Some u) /\
    In (r, socket_id (sock w)) (adapter w') /\
    messages w' = messages w /\
    log w' = log w ++
      [mkEvent (ToSocket (socket_id (sock w)))
         (RoomJoined r (participants d) (exec_query (messages w) (recent_messages_query r)));
       mkEvent (ToRoomExcept r (socket_id (sock w))) (UserJoined u (participants d))].
Proof. exact (join_room_success_gen r u w). Qed.

Lemma ts_le_trans a b c : ts_le a b -> ts_le b c -> ts_le a c.
Proof. unfold ts_le; lia. Qed.

Lemma strongly_sorted_app_split (l1 l2 : list Message) :
  StronglySorted ts_le (l1 ++ l2) ->
  StronglySorted ts_le l1 /\ (forall a b, In a l1 -> In b l2 -> ts_le a b).
Proof.
  induction l1 as [|x t IH]; simpl; intro H.
  - split; [constructor | tauto].
  - apply StronglySorted_inv in H as [Ht Hx].
    destruct (IH Ht) as [S1 S2]; split.
    + constructor; [exact S1|]; apply Forall_forall; intros y Hy.
      apply (proj1 (Forall_forall _ _) Hx); apply in_or_app; left; exact Hy.
    + intros a b [Ea|Ha] Hb; [subst | apply S2; assumption].
      apply (proj1 (Forall_forall _ _) Hx); apply in_or_app; right; exact Hb.
Qed.

Lemma recent_messages_query_exec r db :
  exec_query db (recent_messages_query r)
  = firstn 50 (sort_by (sort_compare [("timestamp", 1)]) (filter (message_matches r) db)).
Proof. reflexivity. Qed.

(** The [messages] of [room-joined] are at most 50 messages of the room
    (all of them when it has at most 50), in ascending timestamp order,
    and no message of the room left out is older than one sent: the reply
    is the oldest part of the room's history. *)
Theorem join_room_reply_window r db :
  let ms := exec_query db (recent_messages_query r) in
  let all := filter (message_matches r) db in
  List.length ms = Nat.min 50 (List.length all) /\
  Sorted ts_le ms /\
  (forall m, In m ms -> In m db /\ m_roomId m = r) /\
  (List.length all <= 50 -> Permutation ms all)%nat /\
  (forall m m', In m ms -> In m' all -> ~ In m' ms -> timestamp m <= timestamp m').
Proof.
  intros ms all; unfold ms; rewrite recent_messages_query_exec; fold all.
  set (S := sort_by (sort_compare [("timestamp", 1)]) all).
  assert (HP : Permutation S all) by apply sort_by_perm.
  assert (HS : StronglySorted ts_le S)
    by (apply Sorted_StronglySorted; [exact ts_le_trans
        | apply (sort_by_sorted _ ts_le ascending_lt ascending_not_lt)]).
  pose proof (firstn_skipn 50 S) as Split.
  rewrite <- Split in HS; apply strongly_sorted_app_split in HS as [HS1 HS2].
  split; [|split; [|split; [|split]]].
  - rewrite length_firstn, (Permutation_length HP); reflexivity.
  - apply StronglySorted_Sorted, HS1.
  - intros m Hm.
    assert (Hm' : In m S) by (rewrite <- Split; apply in_or_app; left; exact Hm).
    apply (Permutation_in _ HP) in Hm'; unfold all in Hm'.
    apply filter_In in Hm' as [Hdb Hr]; split; [exact Hdb | apply String.eqb_eq, Hr].
  - intro Hl; rewrite firstn_all2; [exact HP | rewrite (Permutation_length HP); exact Hl].
  - intros m m' Hm Hm' Hn.
    assert (Hs : In m' S) by exact (Permutation_in _ (Permutation_sym HP) Hm').
    rewrite <- Split in Hs; apply in_app_or in Hs as [Hs|Hs]; [contradiction|].
    exact (HS2 m m' Hm Hs).
Qed.

Lemma Room_save_faults b d : respects faults_suffix (Room_save b d).
Proof.
  intro w; unfold Room_save; destruct (negb (required (roomId d))); [apply faults_suffix_refl|].
  unfold store_call; destruct (faults w) as [|[|] fs] eqn:F.
  - destruct (find (room_matches (roomId d)) (rooms w)), b; apply faults_suffix_same; reflexivity.
  - exact (faults_suffix_pop w true fs F).
  - apply (faults_suffix_trans _ (set_faults fs w)); [exact (faults_suffix_pop w false fs F)|].
    cbn [rooms set_faults];
    destruct (find (room_matches (roomId d)) (rooms w)), b; apply faults_suffix_same; reflexivity.
Qed.

Lemma Room_deleteOne_faults r : respects faults_suffix (Room_deleteOne r).
Proof. unfold Room_deleteOne; frame. Qed.

#[export] Hint Resolve Room_save_faults Room_deleteOne_faults : world.

Lemma remove_first_app_none r rs d :
  find (room_matches r) rs = None -> room_matches r d = true ->
  remove_first r (rs ++ [d]) = rs.
Proof.
  intros Hf Hd; induction rs as [|x t IH]; simpl in *; [rewrite Hd; reflexivity|].
  destruct (room_matches r x); [discriminate | rewrite IH; [reflexivity | exact Hf]].
Qed.

(** [disconnect] of the sole participant, with no store fault, removes
    the room from the Room collection. *)
Lemma disconnect_sole_rooms r u d w :
  r <> "" -> u <> "" ->
  socket_roomId (sock w) = Some r -> socket_username (sock w) = Some u ->
  find (room_matches r) (rooms w) = Some d -> participants d = [u] ->
  no_faults w = true ->
  rooms (run disconnect w) = remove_first r (rooms w).
Proof.
  intros Hr Hu Hsr Hsu Hf Hp Hnf.
  unfold run; rewrite disconnect_unfold, Hsr, Hsu, (truthy_some r Hr), (truthy_some u Hu); cbn [andb].
  unfold disconnect_body.
  destruct (findOne_ok r (snd (socket_leave_all w)) Hnf) as [fs [Hfs E]].
  rewrite (catch_bind_inr _ _ _ _ _ _ E).
  cbn [rooms snd socket_leave_all modify set_adapter]. rewrite Hf, Hp. cbv beta iota.
  cbn [filter]; rewrite String.eqb_refl; cbn [negb filter List.length Nat.eqb].
  match goal with |- context [catch _ _ ?w2] => set (w2' := w2) end.
  destruct (store_call_ok (modify (fun w => set_rooms (remove_first r (rooms w)) w)) w2' Hfs)
    as [fs2 [_ E2]].
  unfold Room_deleteOne; rewrite (catch_inr _ _ _ _ _ E2); reflexivity.
Qed.

(** Round trip: on a room id with no Room record, a [join-room] followed
    by the same connection's [disconnect] (non-empty room id and username,
    no store fault) leaves the Room collection exactly as it was. *)
Theorem join_then_disconnect_restores_rooms r u w :
  r <> "" -> u <> "" -> find (room_matches r) (rooms w) = None -> no_faults w = true ->
  rooms (run disconnect (run (join_room r u) w)) = rooms w.
Proof.
  intros Hr Hu Hf Hnf.
  destruct (join_room_success_gen r u w Hr Hnf) as [d [Hd [Hin [Hs _]]]].
  assert (Hw1 : rooms (run (join_room r u) w) = rooms w ++ [mkRoom r [u] (clock w)]).
  { destruct (join_room_rooms_cases r u w) as [E | [[_ E] | [d0 [Hf0 _]]]].
    - rewrite E, Hf in Hd; discriminate.
    - exact E.
    - rewrite Hf in Hf0; discriminate. }
  assert (Hd' : d = mkRoom r [u] (clock w)).
  { rewrite Hw1, (find_app_none _ _ _ Hf) in Hd; cbn in Hd; rewrite String.eqb_refl in Hd.
    injection Hd; auto. }
  assert (Hnf1 : no_faults (run (join_room r u) w) = true).
  { apply (no_faults_suffix w); [|exact Hnf].
    assert (R : respects faults_suffix (join_room r u)) by handler_frame.
    apply R. }
  rewrite (disconnect_sole_rooms r u d _ Hr Hu) ; try assumption.
  - rewrite Hw1; apply remove_first_app_none; [exact Hf | apply String.eqb_refl].
  - rewrite Hs; reflexivity.
  - rewrite Hs; reflexivity.
  - rewrite Hd'; reflexivity.
Qed.

(** ** REST endpoints *)

(** [GET /api/rooms/:roomId] answers 200 with the stored Room, 404
    [{error: "Room not found"}] when there is none, 500
    [{error: "Server error"}] when the store call fails, and never changes
    the store or emits an event. *)
Theorem get_room_responses r w :
  (forall d, find (room_matches r) (rooms w) = Some d -> next_ok w = true ->
     fst (get_room r w) = inr (200, RoomJson d)) /\
  (find (room_matches r) (rooms w) = None -> next_ok w = true ->
     fst (get_room r w) = inr (404, ErrorJson "Room not found")) /\
  (next_ok w = false -> fst (get_room r w) = inr (500, ErrorJson "Server error")) /\
  same_store_log w (run (get_room r) w).
Proof.
  split; [|split; [exact (get_room_none r w)|split]].
  - intros d Hf; unfold next_ok, get_room, catch, bind, Room_findOne, store_call, gets.
    destruct (faults w) as [|[|] fs]; simpl; intro Hn; try discriminate; rewrite Hf; reflexivity.
  - unfold next_ok, get_room, catch, bind, Room_findOne, store_call, gets.
    destruct (faults w) as [|[|] fs]; simpl; intro Hn; try discriminate; reflexivity.
  - assert (R : respects same_store_log (get_room r)) by (unfold get_room; frame).
    apply R.
Qed.

(** [GET /api/rooms/:roomId/messages] answers 500 [{error: "Server error"}]
    when the store call fails, and never changes the store or emits an
    event. *)
Theorem get_room_messages_fault r w :
  (next_ok w = false -> fst (get_room_messages r w) = inr (500, ErrorJson "Server error")) /\
  same_store_log w (run (get_room_messages r) w).
Proof.
  split.
  - unfold next_ok, get_room_messages, catch, bind, Message_exec, store_call, gets.
    destruct (faults w) as [|[|] fs]; simpl; intro Hn; try discriminate; reflexivity.
  - assert (R : respects same_store_log (get_room_messages r)) by (unfold get_room_messages; frame).
    apply R.
Qed.

(** ** Error paths of the Socket.IO handlers *)

(** When the first store call of [join-room] ([Room.findOne]) fails, the
    handler stores nothing, leaves the connection's session unset as it
    was, and emits only [error {message: "Failed to join room"}] to the
    caller. *)
Theorem join_room_lookup_fault r u w fs :
  faults w = true :: fs ->
  let w' := run (join_room r u) w in
  rooms w' = rooms w /\ messages w' = messages w /\ sock w' = sock w /\
  log w' = log w ++ [mkEvent (ToSocket (socket_id (sock w))) (ErrorEvent "Failed to join room")].
Proof.
  intros F w'; unfold w', run, join_room, join_room_body.
  assert (E : Room_findOne r w = (inl StoreFault, set_faults fs w))
    by (unfold Room_findOne, store_call; rewrite F; reflexivity).
  rewrite (catch_bind_inl _ _ _ _ _ _ E); repeat split.
Qed.

(** [join-room] with the empty room id on a store with no such room fails
    the [required] validator of [roomId] (or a store call): no Room is
    created, the session stays as it was, and only
    [error {message: "Failed to join room"}] goes to the caller. *)
Theorem join_room_empty_id_rejected u w :
  find (room_matches "") (rooms w) = None ->
  let w' := run (join_room "" u) w in
  rooms w' = rooms w /\ messages w' = messages w /\ sock w' = sock w /\
  log w' = log w ++ [mkEvent (ToSocket (socket_id (sock w))) (ErrorEvent "Failed to join room")].
Proof.
  intros Hf w'; unfold w', run, join_room, join_room_body.
  destruct (findOne_result "" w) as [fs [E|E]].
  - rewrite (catch_bind_inl _ _ _ _ _ _ E); repeat split.
  - rewrite (catch_bind_inr _ _ _ _ _ _ E).
    rewrite (catch_bind_inr _ _ _ _ _ _ (eq_refl : gets clock (set_faults fs w) = (inr (clock w), set_faults fs w))).
    rewrite Hf; cbv beta iota.
    assert (E2 : Room_save true (mkRoom "" [u] (clock w)) (set_faults fs w)
                 = (inl ValidationError, set_faults fs w)) by reflexivity.
    rewrite (catch_bind_bind_inl _ _ _ _ _ _ _ E2); repeat split.
Qed.

(** [send-message] with an empty room id, sender or text never reaches the
    store (the schema's [required] validators reject it): no Message is
    stored and only [error {message: "Failed to send message"}] goes to
    the caller, whatever the store would do. *)
Theorem send_message_invalid_rejected r sdr t w :
  required r && required sdr && required t = false ->
  let w' := run (send_message r sdr t) w in
  rooms w' = rooms w /\ messages w' = messages w /\ faults w' = faults w /\
  log w' = log w ++ [mkEvent (ToSocket (socket_id (sock w))) (ErrorEvent "Failed to send message")].
Proof.
  intros H w'; unfold w', run, send_message, send_message_body, catch, bind, gets, modify,
    Message_save; cbn -[required]; rewrite H; repeat split.
Qed.

(** When [Message.deleteMany] fails, [clear-room-chat] deletes nothing,
    broadcasts nothing, and sends [error {message: "Failed to clear chat"}]
    to the caller only. *)
Theorem clear_room_chat_fault r w :
  next_ok w = false ->
  let w' := run (clear_room_chat r) w in
  messages w' = messages w /\ rooms w' = rooms w /\
  log w' = log w ++ [mkEvent (ToSocket (socket_id (sock w))) (ErrorEvent "Failed to clear chat")].
Proof.
  intros H w'; unfold next_ok in H; unfold w', run, clear_room_chat, clear_room_chat_body, catch, bind,
    Message_deleteMany, store_call.
  destruct (faults w) as [|[|] fs]; try discriminate; repeat split.
Qed.

(** ** Composition with the REST endpoint *)

Lemma get_room_messages_ok r w :
  next_ok w = true ->
  fst (get_room_messages r w) =
  inr (200, MessagesJson (sort_by (sort_compare [("timestamp", 1)])
                            (filter (message_matches r) (messages w)))).
Proof.
  unfold next_ok, get_room_messages, catch, bind, Message_exec, store_call, gets.
  destruct (faults w) as [|[|] fs]; simpl; intro Hn; try discriminate; reflexivity.
Qed.

Lemma send_message_success_messages r sdr t w :
  fst (send_message_body r sdr t w) = inr tt ->
  messages (run (send_message r sdr t) w)
  = messages w ++ [mkMessage (next_oid w) r sdr t (clock w)].
Proof.
  unfold run, send_message, send_message_body, catch, bind, gets, modify, Message_save, store_call, emit.
  cbn -[required].
  destruct (required r && required sdr && required t); cbn;
  [destruct (faults w) as [|[|] fs]|]; cbn; intro H; try discriminate; reflexivity.
Qed.

Lemma clear_room_chat_success_messages r w :
  fst (clear_room_chat_body r w) = inr tt ->
  messages (run (clear_room_chat r) w)
  = filter (fun m => negb (message_matches r m)) (messages w).
Proof.
  unfold run, clear_room_chat, clear_room_chat_body, catch, bind, Message_deleteMany, store_call.
  destruct (faults w) as [|[|] fs]; simpl; intro H; try discriminate; reflexivity.
Qed.

Lemma filter_cleared_nil r ms :
  filter (message_matches r) (filter (fun m => negb (message_matches r m)) ms) = [].
Proof. induction ms as [|m t IH]; simpl; [reflexivity|]; destruct (message_matches r m) eqn:E; simpl; try rewrite E; auto. Qed.

(** A message stored by a successful [send-message] is listed by the next
    successful [GET /api/rooms/:roomId/messages] of its room, and every
    listed message is a stored message of that room. *)
Theorem send_then_list_messages r sdr t w :
  fst (send_message_body r sdr t w) = inr tt ->
  let w' := run (send_message r sdr t) w in
  next_ok w' = true ->
  exists ms, fst (get_room_messages r w') = inr (200, MessagesJson ms) /\
    In (mkMessage (next_oid w) r sdr t (clock w)) ms /\
    (forall m, In m ms -> In m (messages w') /\ m_roomId m = r).
Proof.
  intros H w' Hn; rewrite (get_room_messages_ok r w' Hn); eexists; split; [reflexivity|].
  pose proof (sort_by_perm (sort_compare [("timestamp", 1)])
                (filter (message_matches r) (messages w'))) as P.
  split.
  - apply (Permutation_in _ (Permutation_sym P)), filter_In; split.
    + unfold w'; rewrite (send_message_success_messages r sdr t w H).
      apply in_or_app; right; left; reflexivity.
    + apply String.eqb_refl.
  - intros m Hm; apply (Permutation_in _ P), filter_In in Hm as [Hm E].
    split; [exact Hm | apply String.eqb_eq, E].
Qed.

(** After a successful [clear-room-chat r], the next successful
    [GET /api/rooms/:roomId/messages] of [r] answers 200 with no message. *)
Theorem clear_then_list_messages r w :
  fst (clear_room_chat_body r w) = inr tt ->
  let w' := run (clear_room_chat r) w in
  next_ok w' = true ->
  fst (get_room_messages r w') = inr (200, MessagesJson []).
Proof.
  intros H w' Hn; rewrite (get_room_messages_ok r w' Hn).
  unfold w'; rewrite (clear_room_chat_success_messages r w H), filter_cleared_nil; reflexivity.
Qed.

(** ** What each handler leaves alone *)

(** Whatever the store does, [join-room] and [disconnect] never change the
    Message collection (deleting an emptied room keeps its chat history),
    [send-message] never changes the Room collection, and [typing] makes no
    store round trip at all. *)
Theorem handlers_store_separation w r u sdr t b :
  messages (run (join_room r u) w) = messages w /\
  messages (run disconnect w) = messages w /\
  rooms (run (send_message r sdr t) w) = rooms w /\
  rooms (run (typing r u b) w) = rooms w /\
  messages (run (typing r u b) w) = messages w /\
  faults (run (typing r u b) w) = faults w.
Proof.
  split; [|split; [|split]].
  - assert (R : respects same_messages (join_room r u)) by handler_frame. apply R.
  - assert (R : respects same_messages disconnect) by handler_frame. apply R.
  - assert (R : respects same_rooms (send_message r sdr t)) by handler_frame. apply R.
  - repeat split.
Qed.


(** [disconnect], whatever the store does, never sends anything to the
    closing connection and emits nothing but [user-left] to the other
    members of a room; it leaves the session fields of the connection as
    they were. *)
Theorem disconnect_emits_only_user_left w :
  let w' := run disconnect w in
  sock w' = sock w /\
  exists l, log w' = log w ++ l /\ Forall (user_left_from (socket_id (sock w))) l.
Proof.
  assert (B : forall sid r u, respects (left_only sid) (disconnect_body sid r u))
    by (intros; unfold disconnect_body; frame).
  assert (L : left_only (socket_id (sock w)) w (snd (socket_leave_all w)))
    by (apply left_only_same; reflexivity).
  intro w'; unfold w', run; rewrite disconnect_unfold.
  apply (left_only_trans _ _ _ _ L).
  remember (snd (socket_leave_all w)) as w1.
  destruct (socket_roomId (sock w)) as [r|], (socket_username (sock w)) as [u|];
  try apply left_only_refl.
  destruct (truthy (Some r) && truthy (Some u)); [|apply left_only_refl].
  apply respects_catch; [apply left_only_trans | apply B |].
  intro; apply respects_ret, left_only_refl.
Qed.

(** ** Instances of the properties above *)

Lemma handlers_keep_unique_ids_witness :
  unique_ids (rooms world_alice) /\
  unique_ids (rooms (run (join_room "r2" "bob") world_alice)) /\
  unique_ids (rooms (run disconnect world_alice)) /\
  unique_ids (rooms (run (send_message "r1" "alice" "hi") world_alice)) /\
  unique_ids (rooms (run (clear_room_chat "r1") world_alice)) /\
  unique_ids (rooms (run (typing "r1" "alice" true) world_alice)).
Proof.
  assert (H : unique_ids (rooms world_alice))
    by (vm_compute; constructor; [intros []| constructor]).
  split; [exact H | apply (handlers_keep_unique_ids world_alice "r2" "bob" "alice" "hi" true H)].
Defined.

Lemma handlers_keep_nonempty_ids_witness :
  nonempty_ids (rooms world_alice) /\
  nonempty_ids (rooms (run (join_room "" "bob") world_alice)) /\
  nonempty_ids (rooms (run disconnect world_alice)) /\
  nonempty_ids (rooms (run (send_message "" "alice" "hi") world_alice)) /\
  nonempty_ids (rooms (run (clear_room_chat "") world_alice)) /\
  nonempty_ids (rooms (run (typing "" "bob" true) world_alice)).
Proof.
  assert (H : nonempty_ids (rooms world_alice))
    by (vm_compute; constructor; [discriminate | constructor]).
  split; [exact H | apply (handlers_keep_nonempty_ids world_alice "" "bob" "alice" "hi" true H)].
Defined.

Lemma handlers_keep_good_participants_witness :
  good_participants (rooms world_alice) /\
  good_participants (rooms (run (join_room "r1" "alice") world_alice)) /\
  good_participants (rooms (run disconnect world_alice)) /\
  good_participants (rooms (run (send_message "r1" "alice" "hi") world_alice)) /\
  good_participants (rooms (run (clear_room_chat "r1") world_alice)) /\
  good_participants (rooms (run (typing "r1" "alice" false) world_alice)).
Proof.
  assert (H : good_participants (rooms world_alice))
    by (vm_compute; repeat constructor; [discriminate | intros []]).
  split; [exact H |
    apply (handlers_keep_good_participants world_alice "r1" "alice" "alice" "hi" false H)].
Defined.

Lemma join_room_success_witness :
  "r1" <> "" /\ no_faults world_alice = true /\
  let w' := run (join_room "r1" "bob") world_alice in
  exists d, find (room_matches "r1") (rooms w') = Some d /\ In "bob" (participants d) /\
    sock w' = mkSocket (socket_id (sock world_alice)) (Some "r1") (Some "bob") /\
    In ("r1", socket_id (sock world_alice)) (adapter w') /\
    messages w' = messages world_alice /\
    log w' = log world_alice ++
      [mkEvent (ToSocket (socket_id (sock world_alice)))
         (RoomJoined "r1" (participants d)
            (exec_query (messages world_alice) (recent_messages_query "r1")));
       mkEvent (ToRoomExcept "r1" (socket_id (sock world_alice)))
         (UserJoined "bob" (participants d))].
Proof.
  split; [discriminate | split; [reflexivity |]].
  apply (join_room_success "r1" "bob" world_alice); [discriminate | reflexivity].
Defined.

Lemma join_then_disconnect_restores_rooms_witness :
  "r1" <> "" /\ "alice" <> "" /\ find (room_matches "r1") (rooms world0) = None /\
  no_faults world0 = true /\
  rooms (run disconnect (run (join_room "r1" "alice") world0)) = rooms world0.
Proof.
  split; [discriminate | split; [discriminate | split; [reflexivity | split; [reflexivity |]]]].
  apply (join_then_disconnect_restores_rooms "r1" "alice" world0);
    [discriminate | discriminate | reflexivity | reflexivity].
Defined.

Lemma join_room_lookup_fault_witness :
  faults (set_faults [true] world_alice) = [true] /\
  let w := set_faults [true] world_alice in
  let w' := run (join_room "r2" "bob") w in
  rooms w' = rooms w /\ messages w' = messages w /\ sock w' = sock w /\
  log w' = log w ++ [mkEvent (ToSocket (socket_id (sock w))) (ErrorEvent "Failed to join room")].
Proof.
  split; [reflexivity |].
  exact (join_room_lookup_fault "r2" "bob" (set_faults [true] world_alice) [] eq_refl).
Defined.

Lemma join_room_empty_id_rejected_witness :
  find (room_matches "") (rooms world_alice) = None /\
  let w' := run (join_room "" "bob") world_alice in
  rooms w' = rooms world_alice /\ messages w' = messages world_alice /\
  sock w' = sock world_alice /\
  log w' = log world_alice ++
    [mkEvent (ToSocket (socket_id (sock world_alice))) (ErrorEvent "Failed to join room")].
Proof.
  split; [reflexivity |].
  exact (join_room_empty_id_rejected "bob" world_alice eq_refl).
Defined.

Lemma send_message_invalid_rejected_witness :
  required "r1" && required "alice" && required "" = false /\
  let w' := run (send_message "r1" "alice" "") world_alice in
  rooms w' = rooms world_alice /\ messages w' = messages world_alice /\
  faults w' = faults world_alice /\
  log w' = log world_alice ++
    [mkEvent (ToSocket (socket_id (sock world_alice))) (ErrorEvent "Failed to send message")].
Proof.
  split; [reflexivity |].
  exact (send_message_invalid_rejected "r1" "alice" "" world_alice eq_refl).
Defined.

Lemma clear_room_chat_fault_witness :
  next_ok (set_faults [true] world51) = false /\
  let w := set_faults [true] world51 in
  let w' := run (clear_room_chat "r1") w in
  messages w' = messages w /\ rooms w' = rooms w /\
  log w' = log w ++ [mkEvent (ToSocket (socket_id (sock w))) (ErrorEvent "Failed to clear chat")].
Proof.
  split; [reflexivity |].
  exact (clear_room_chat_fault "r1" (set_faults [true] world51) eq_refl).
Defined.

Lemma send_then_list_messages_witness :
  fst (send_message_body "r1" "alice" "hi" world_alice) = inr tt /\
  next_ok (run (send_message "r1" "alice" "hi") world_alice) = true /\
  exists ms,
    fst (get_room_messages "r1" (run (send_message "r1" "alice" "hi") world_alice))
      = inr (200, MessagesJson ms) /\
    In (mkMessage (next_oid world_alice) "r1" "alice" "hi" (clock world_alice)) ms /\
    (forall m, In m ms ->
       In m (messages (run (send_message "r1" "alice" "hi") world_alice)) /\ m_roomId m = "r1").
Proof.
  split; [reflexivity | split; [reflexivity |]].
  exact (send_then_list_messages "r1" "alice" "hi" world_alice eq_refl eq_refl).
Defined.

Lemma clear_then_list_messages_witness :
  fst (clear_room_chat_body "r1" world51) = inr tt /\
  next_ok (run (clear_room_chat "r1") world51) = true /\
  fst (get_room_messages "r1" (run (clear_room_chat "r1") world51)) = inr (200, MessagesJson []).
Proof.
  split; [reflexivity | split; [reflexivity |]].
  exact (clear_then_list_messages "r1" world51 eq_refl eq_refl).
Defined.

